(** * The live automation session of the Web Automation Agent front end

    A shallow embedding of the client side of the session protocol:
    the zustand store ([store.js]), the WebSocket handlers, the mount
    effect and [handleSend] of [App.jsx], and the [slice(-3)] projection
    of [LiveStepsIndicator.jsx].

    JavaScript values are modelled by [JsVal]; the React component
    instance by the record [App] (store, local state, refs, sockets and
    pending timers); the browser by a list of [Event]s that invoke the
    handlers the code installed. *)

From Stdlib Require Import List String Ascii Bool ZArith NArith PArith Lia.
Import ListNotations.
Local Open Scope string_scope.

Set Implicit Arguments.
Set Warnings "-register-all".

(** ** JavaScript values *)

Module Js.

(** Values that [JSON.parse] can produce, plus [undefined] (the result
    of reading an absent property).  A JSON number is carried as an
    integer, and stands for itself only while it is a safe integer (at
    most 2^53 in magnitude): the code tests numbers for truthiness,
    copies them, and prints them in a template literal, and beyond that
    range, or for fractions, the printed text is not modelled. *)
Inductive JsVal : Type :=
| JUndefined
| JNull
| JBool (b : bool)
| JNum (n : Z)
| JStr (s : string)
| JArr (items : list JsVal)
| JObj (fields : list (string * JsVal)).

(** ToBoolean. *)
Definition truthy (v : JsVal) : bool :=
  match v with
  | JUndefined | JNull => false
  | JBool b => b
  | JNum n => negb (Z.eqb n 0)
  | JStr s => negb (String.eqb s "")
  | JArr _ | JObj _ => true
  end.

(** [a || b] on values. *)
Definition or_else (a b : JsVal) : JsVal := if truthy a then a else b.

(** Own-property lookup in a parsed object. *)
Fixpoint assoc (k : string) (fs : list (string * JsVal)) : JsVal :=
  match fs with
  | [] => JUndefined
  | (k', v) :: fs' => if String.eqb k k' then v else assoc k fs'
  end.

(** Abrupt completions. *)
Inductive Exn : Type := SyntaxError | TypeError | NetworkError.

Inductive Completion (A : Type) : Type :=
| Normal (a : A)
| Throw (e : Exn).
Arguments Throw {A} e.

(** [v.k] for the property names the application reads ([type],
    [status], [message], ...): none of them exists on the prototypes of
    primitives or arrays, so only objects can yield a value; reading a
    property of [null] or [undefined] throws. *)
Definition get (v : JsVal) (k : string) : Completion JsVal :=
  match v with
  | JUndefined | JNull => Throw TypeError
  | JObj fs => Normal (assoc k fs)
  | _ => Normal JUndefined
  end.

(** [v?.k] *)
Definition get_opt (v : JsVal) (k : string) : JsVal :=
  match v with
  | JObj fs => assoc k fs
  | _ => JUndefined
  end.

(** Decimal rendering of an integer.  Number.prototype.toString prints
    a safe integer this way; larger numbers get the shortest digits that
    round-trip, and an exponent from 1e21 on, which [safe_integer] keeps
    out of the statements that speak of the text. *)
Fixpoint digits (fuel : nat) (n : N) (acc : string) : string :=
  match fuel with
  | O => acc
  | S fuel' =>
      let d := ascii_of_N (48 + N.modulo n 10) in
      let q := N.div n 10 in
      if N.eqb q 0 then String d acc else digits fuel' q (String d acc)
  end.

Definition num_to_string (n : Z) : string :=
  match n with
  | Z0 => "0"
  | Zpos p => digits (S (Pos.to_nat p)) (Npos p) ""
  | Zneg p => String "-" (digits (S (Pos.to_nat p)) (Npos p) "")
  end.

Definition safe_integer (n : Z) : bool :=
  Z.leb (Z.abs n) 9007199254740992.

(** [k in o], for a parsed object. *)
Definition has_key (k : string) (fs : list (string * JsVal)) : bool :=
  existsb (fun kv => String.eqb k (fst kv)) fs.

(** ToString, as a template literal applies it.  A parsed object is
    printed by [Object.prototype.toString], unless it has a property
    [toString] of its own: no parsed value is callable, so the
    conversion then finds no method that yields a primitive and throws
    a TypeError.  An array is joined with commas, [null] and
    [undefined] elements printing as nothing, and throws when an
    element does. *)
Fixpoint to_string (v : JsVal) : Completion string :=
  match v with
  | JUndefined => Normal "undefined"
  | JNull => Normal "null"
  | JBool true => Normal "true"
  | JBool false => Normal "false"
  | JNum n => Normal (num_to_string n)
  | JStr s => Normal s
  | JArr items =>
      let elem (x : JsVal) : Completion string :=
        match x with
        | JUndefined | JNull => Normal ""
        | _ => to_string x
        end in
      (fix join (l : list JsVal) : Completion string :=
         match l with
         | [] => Normal ""
         | x :: l' =>
             match elem x with
             | Throw e => Throw e
             | Normal s =>
                 match l' with
                 | [] => Normal s
                 | _ :: _ =>
                     match join l' with
                     | Throw e => Throw e
                     | Normal r => Normal (String.append s (String "," r))
                     end
                 end
             end
         end) items
  | JObj fs =>
      if has_key "toString" fs then Throw TypeError
      else Normal "[object Object]"
  end.

(** [`${prefix}${v}`] *)
Definition template (prefix : string) (v : JsVal) : Completion JsVal :=
  match to_string v with
  | Normal s => Normal (JStr (String.append prefix s))
  | Throw e => Throw e
  end.

End Js.
Export Js.


(** ** Strings

    A JavaScript string is a sequence of UTF-16 code units; the model
    covers the code units 0..255 (the Latin-1 range), on which
    [toLowerCase] and [trim] act unit by unit. *)

Module JsString.

Definition code (c : ascii) : N := N_of_ascii c.

(** White space as [String.prototype.trim] sees it, within Latin-1:
    TAB, LF, VT, FF, CR, SPACE and NBSP. *)
Definition is_ws (c : ascii) : bool :=
  let n := code c in
  (N.leb 9 n && N.leb n 13) || N.eqb n 32 || N.eqb n 160.

(** Lower-casing of one code unit: A-Z, and the capital letters
    U+00C0..U+00DE except the multiplication sign U+00D7. *)
Definition lower_char (c : ascii) : ascii :=
  let n := code c in
  if (N.leb 65 n && N.leb n 90)
     || (N.leb 192 n && N.leb n 222 && negb (N.eqb n 215))
  then ascii_of_N (n + 32) else c.

Fixpoint toLowerCase (s : string) : string :=
  match s with
  | EmptyString => EmptyString
  | String c s' => String (lower_char c) (toLowerCase s')
  end.

Fixpoint trimStart (s : string) : string :=
  match s with
  | EmptyString => EmptyString
  | String c s' => if is_ws c then trimStart s' else s
  end.

Fixpoint rev_append (s acc : string) : string :=
  match s with
  | EmptyString => acc
  | String c s' => rev_append s' (String c acc)
  end.

Definition reverse (s : string) : string := rev_append s EmptyString.

Definition trimEnd (s : string) : string := reverse (trimStart (reverse s)).

Definition trim (s : string) : string := trimEnd (trimStart s).

Fixpoint startsWith (pat s : string) : bool :=
  match pat, s with
  | EmptyString, _ => true
  | String a pat', String b s' => Ascii.eqb a b && startsWith pat' s'
  | String _ _, EmptyString => false
  end.

(** [s.includes(pat)] *)
Fixpoint includes (s pat : string) : bool :=
  startsWith pat s ||
  match s with
  | EmptyString => false
  | String _ s' => includes s' pat
  end.

Fixpoint chars (s : string) : list ascii :=
  match s with
  | EmptyString => []
  | String c s' => c :: chars s'
  end.

End JsString.
Export JsString.

(** ** The store ([store.js], zustand) *)

(** The object passed to [setAutomationStatus]; a key the literal does
    not mention reads as [undefined]. *)
Record Status : Type := mkStatus {
  status : JsVal;
  message : JsVal;
  action : JsVal;
  step : JsVal;
  maxSteps : JsVal
}.

(** The object passed to [addAutomationStep]. *)
Record Step : Type := mkStep {
  step_action : JsVal;
  step_message : JsVal;
  step_screenshot : JsVal
}.

Record Store : Type := mkStore {
  messages : list JsVal;
  currentMode : string;
  currentUrl : JsVal;
  browserView : JsVal;
  isAutomating : bool;
  automationStatus : option Status;
  automationSteps : list Step
}.

Definition initialStore : Store :=
  {| messages := [];
     currentMode := "assist";
     currentUrl := JNull;
     browserView := JNull;
     isAutomating := false;
     automationStatus := None;
     automationSteps := [] |}.

Definition addMessage (m : JsVal) (s : Store) : Store :=
  mkStore (messages s ++ [m])%list (currentMode s) (currentUrl s) (browserView s)
          (isAutomating s) (automationStatus s) (automationSteps s).

Definition clearMessages (s : Store) : Store :=
  mkStore [] (currentMode s) (currentUrl s) (browserView s)
          (isAutomating s) (automationStatus s) (automationSteps s).

Definition setMode (mode : string) (s : Store) : Store :=
  mkStore (messages s) mode (currentUrl s) (browserView s)
          (isAutomating s) (automationStatus s) (automationSteps s).

Definition setUrl (url : JsVal) (s : Store) : Store :=
  mkStore (messages s) (currentMode s) url (browserView s)
          (isAutomating s) (automationStatus s) (automationSteps s).

Definition setBrowserView (view : JsVal) (s : Store) : Store :=
  mkStore (messages s) (currentMode s) (currentUrl s) view
          (isAutomating s) (automationStatus s) (automationSteps s).

Definition setIsAutomating (b : bool) (s : Store) : Store :=
  mkStore (messages s) (currentMode s) (currentUrl s) (browserView s)
          b (automationStatus s) (automationSteps s).

Definition setAutomationStatus (st : Status) (s : Store) : Store :=
  mkStore (messages s) (currentMode s) (currentUrl s) (browserView s)
          (isAutomating s) (Some st) (automationSteps s).

(** [automationSteps: [...state.automationSteps, step]] *)
Definition addAutomationStep (x : Step) (s : Store) : Store :=
  mkStore (messages s) (currentMode s) (currentUrl s) (browserView s)
          (isAutomating s) (automationStatus s) (automationSteps s ++ [x])%list.

Definition clearAutomationSteps (s : Store) : Store :=
  mkStore (messages s) (currentMode s) (currentUrl s) (browserView s)
          (isAutomating s) (automationStatus s) [].

Definition resetAutomationState (s : Store) : Store :=
  mkStore (messages s) (currentMode s) (currentUrl s) (browserView s)
          false None [].

(** [steps.slice(-n)]: the last [n] elements, or all of them when there
    are fewer ([LiveStepsIndicator] uses [n = 3]); [-0] is [0], so
    [slice(-0)] is the whole array. *)
Definition slice_last {A} (n : nat) (l : list A) : list A :=
  match n with
  | O => l
  | S _ => skipn (List.length l - n) l
  end.

Definition visibleSteps (s : Store) : list Step := slice_last 3 (automationSteps s).

(** The session part of the store: what the indicators are rendered from. *)
Definition session (s : Store) : bool * option Status * list Step :=
  (isAutomating s, automationStatus s, automationSteps s).

(** [phase == idle] with nothing left over from a task. *)
Definition idle_clean (s : Store) : Prop :=
  isAutomating s = false /\ automationStatus s = None /\ automationSteps s = [].

(** ** The browser: sockets and timers *)

Inductive ReadyState : Type := CONNECTING | OPEN | CLOSING | CLOSED.

(** The three functions the code hands to [setTimeout]/[setInterval]. *)
Inductive Callback : Type :=
| CbReconnect   (* () => { reconnectTimeoutRef.current = null; connectWebSocket() } *)
| CbReset       (* () => { resetAutomationState() } *)
| CbPing.       (* () => { if (open) wsRef.current.send('ping') } *)

Record Timer : Type := mkTimer {
  tid : positive;          (* the handle; user agents return integers > 0 *)
  due : N;                 (* earliest time of the next run, in ms *)
  period : option N;       (* [Some p] for setInterval *)
  callback : Callback
}.

Record Browser : Type := mkBrowser {
  sockets : list ReadyState;      (* every WebSocket created, by creation index *)
  timers : list Timer;            (* pending timers *)
  nextTimer : positive;
  clock : N;
  outbox : list (nat * string)    (* frames sent, per socket *)
}.

(** ** The component instance ([App.jsx]) *)

(** [useState] cells. *)
Record Local : Type := mkLocal {
  input : string;
  isLoading : bool;
  browserUrl : JsVal;
  browserScreenshot : JsVal
}.

(** [useRef] cells. *)
Record Refs : Type := mkRefs {
  wsRef : option nat;
  reconnectTimeoutRef : option positive;
  isConnectingRef : bool
}.

(** The constants [ws] and [pingInterval] of the mount effect, which its
    cleanup closes over; [None] while no cleanup is registered. *)
Record Effect : Type := mkEffect {
  effectWs : option nat;
  pingInterval : option positive
}.

(** [seenStatus] is the variable [automationStatus] in the scope of
    [connectWebSocket].  The mount effect has an empty dependency array,
    so the only [connectWebSocket] ever called is the one created by the
    first render (the reconnect timer calls that same function again):
    its handlers read the value the store had at the first render. *)
Record App : Type := mkApp {
  store : Store;
  local : Local;
  refs : Refs;
  effect : Effect;
  browser : Browser;
  seenStatus : option Status
}.

Definition initialApp : App :=
  {| store := initialStore;
     local := mkLocal "" false (JStr "about:blank") JNull;
     refs := mkRefs None None false;
     effect := mkEffect None None;
     browser := mkBrowser [] [] 1%positive 0%N [];
     seenStatus := automationStatus initialStore |}.

Definition on_store (f : Store -> Store) (a : App) : App :=
  mkApp (f (store a)) (local a) (refs a) (effect a) (browser a) (seenStatus a).
Definition on_local (f : Local -> Local) (a : App) : App :=
  mkApp (store a) (f (local a)) (refs a) (effect a) (browser a) (seenStatus a).
Definition on_refs (f : Refs -> Refs) (a : App) : App :=
  mkApp (store a) (local a) (f (refs a)) (effect a) (browser a) (seenStatus a).
Definition on_browser (f : Browser -> Browser) (a : App) : App :=
  mkApp (store a) (local a) (refs a) (effect a) (f (browser a)) (seenStatus a).
Definition set_effect (e : Effect) (a : App) : App :=
  mkApp (store a) (local a) (refs a) e (browser a) (seenStatus a).

Definition setInput (v : string) (l : Local) : Local :=
  mkLocal v (isLoading l) (browserUrl l) (browserScreenshot l).
Definition setIsLoading (v : bool) (l : Local) : Local :=
  mkLocal (input l) v (browserUrl l) (browserScreenshot l).
Definition setBrowserUrl (v : JsVal) (l : Local) : Local :=
  mkLocal (input l) (isLoading l) v (browserScreenshot l).
Definition setBrowserScreenshot (v : JsVal) (l : Local) : Local :=
  mkLocal (input l) (isLoading l) (browserUrl l) v.

Definition set_wsRef (v : option nat) (r : Refs) : Refs :=
  mkRefs v (reconnectTimeoutRef r) (isConnectingRef r).
Definition set_reconnectTimeoutRef (v : option positive) (r : Refs) : Refs :=
  mkRefs (wsRef r) v (isConnectingRef r).
Definition set_isConnectingRef (v : bool) (r : Refs) : Refs :=
  mkRefs (wsRef r) (reconnectTimeoutRef r) v.

Definition set_sockets (v : list ReadyState) (b : Browser) : Browser :=
  mkBrowser v (timers b) (nextTimer b) (clock b) (outbox b).
Definition set_timers (v : list Timer) (b : Browser) : Browser :=
  mkBrowser (sockets b) v (nextTimer b) (clock b) (outbox b).

(** *** Browser primitives *)

Definition is_timer (id : positive) (t : Timer) : bool := Pos.eqb (tid t) id.

(** [setTimeout(cb, delay)] and [setInterval(cb, delay)]. *)
Definition schedule (cb : Callback) (delay : N) (repeat : bool) (b : Browser)
  : positive * Browser :=
  let t := mkTimer (nextTimer b) (clock b + delay)
                   (if repeat then Some delay else None) cb in
  (nextTimer b,
   mkBrowser (sockets b) (timers b ++ [t])%list (Pos.succ (nextTimer b))
             (clock b) (outbox b)).

(** [clearTimeout(id)] / [clearInterval(id)]. *)
Definition clearTimer (id : positive) (b : Browser) : Browser :=
  set_timers (filter (fun t => negb (is_timer id t)) (timers b)) b.

Fixpoint set_nth {A} (n : nat) (x : A) (l : list A) : list A :=
  match l, n with
  | [], _ => []
  | _ :: l', O => x :: l'
  | y :: l', S n' => y :: set_nth n' x l'
  end.

(** [new WebSocket(wsUrl)] *)
Definition newWebSocket (b : Browser) : nat * Browser :=
  (List.length (sockets b), set_sockets (sockets b ++ [CONNECTING])%list b).

Definition set_readyState (sid : nat) (r : ReadyState) (b : Browser) : Browser :=
  set_sockets (set_nth sid r (sockets b)) b.

(** [w && w.readyState === WebSocket.OPEN] *)
Definition is_open (b : Browser) (w : option nat) : bool :=
  match w with
  | Some sid =>
      match nth_error (sockets b) sid with
      | Some OPEN => true
      | _ => false
      end
  | None => false
  end.

(** [ws.close()] *)
Definition ws_close (sid : nat) (b : Browser) : Browser :=
  match nth_error (sockets b) sid with
  | Some CONNECTING | Some OPEN => set_readyState sid CLOSING b
  | _ => b
  end.

(** [ws.send(text)] on an open socket. *)
Definition ws_send (sid : nat) (text : string) (b : Browser) : Browser :=
  mkBrowser (sockets b) (timers b) (nextTimer b) (clock b)
            (outbox b ++ [(sid, text)])%list.

(** ** Statements that may throw *)

(** A statement runs on the instance and completes normally or
    abruptly; the state it leaves is kept either way. *)
Definition JS (A : Type) : Type := App -> Completion A * App.

Definition ret {A} (x : A) : JS A := fun a => (Normal x, a).

Definition bind {A B} (m : JS A) (k : A -> JS B) : JS B :=
  fun a =>
    match m a with
    | (Normal x, a') => k x a'
    | (Throw e, a') => (Throw e, a')
    end.

Definition lift {A} (c : Completion A) : JS A := fun a => (c, a).

Definition exec (f : App -> App) : JS unit := fun a => (Normal tt, f a).

(** [try { m } catch (e) { h }] *)
Definition try_catch (m : JS unit) (h : Exn -> JS unit) : JS unit :=
  fun a =>
    match m a with
    | (Normal x, a') => (Normal x, a')
    | (Throw e, a') => h e a'
    end.

(** [try { m } finally { f }] *)
Definition finally (m : JS unit) (f : JS unit) : JS unit :=
  fun a =>
    match m a with
    | (Normal _, a') => f a'
    | (Throw e, a') =>
        match f a' with
        | (Normal _, a'') => (Throw e, a'')
        | (Throw e', a'') => (Throw e', a'')
        end
    end.

Definition when (c : bool) (m : JS unit) : JS unit := if c then m else ret tt.

Declare Scope js_scope.
Delimit Scope js_scope with js.
Notation "x <- m ;; k" := (bind m (fun x => k))
  (at level 61, m at next level, right associativity) : js_scope.
Notation "m ;; k" := (bind m (fun _ => k))
  (at level 61, right associativity) : js_scope.

(** ** The WebSocket handlers ([connectWebSocket]) *)

(** The text of a message event: either it is not JSON, or it denotes a
    value. *)
Inductive Payload : Type :=
| NotJson
| Json (v : JsVal).

Definition JSON_parse (p : Payload) : Completion JsVal :=
  match p with
  | NotJson => Throw SyntaxError
  | Json v => Normal v
  end.

(** [case 'name':] of a [switch], which compares with [===]. *)
Definition is_case (v : JsVal) (name : string) : bool :=
  match v with
  | JStr s => String.eqb s name
  | _ => false
  end.

(** [automationStatus?.k] *)
Definition seen (st : option Status) (k : Status -> JsVal) : JsVal :=
  match st with
  | Some s => k s
  | None => JUndefined
  end.

(** [`data:image/png;base64,${screenshot}`] *)
Definition dataUrl (screenshot : JsVal) : Completion JsVal :=
  template "data:image/png;base64," screenshot.

Definition setTimeout (cb : Callback) (delay : N) (a : App) : positive * App :=
  let (id, b) := schedule cb delay false (browser a) in
  (id, on_browser (fun _ => b) a).

Definition setInterval (cb : Callback) (delay : N) (a : App) : positive * App :=
  let (id, b) := schedule cb delay true (browser a) in
  (id, on_browser (fun _ => b) a).

Local Open Scope js_scope.

(** The body of the [try] block of [ws.onmessage]; [automationStatus] is
    the variable of the enclosing scope. *)
Definition onmessage_try (automationStatus : option Status) (p : Payload) : JS unit :=
  data <- lift (JSON_parse p) ;;
  type <- lift (get data "type") ;;
  if is_case type "automation_start" then
    exec (on_store (setIsAutomating true)) ;;
    exec (on_store clearAutomationSteps) ;;
    st <- lift (get data "status") ;;
    msg <- lift (get data "message") ;;
    exec (on_store (setAutomationStatus
                      (mkStatus st msg JUndefined JUndefined JUndefined)))
  else if is_case type "automation_status" then
    st <- lift (get data "status") ;;
    msg <- lift (get data "message") ;;
    act <- lift (get data "action") ;;
    stp <- lift (get data "step") ;;
    mx <- lift (get data "maxSteps") ;;
    exec (on_store (setAutomationStatus (mkStatus st msg act stp mx)))
  else if is_case type "screenshot_update" then
    shot <- lift (get data "screenshot") ;;
    when (truthy shot)
      (src <- lift (dataUrl shot) ;;
       exec (on_local (setBrowserScreenshot src)) ;;
       exec (on_store (addAutomationStep
               (mkStep (or_else (seen automationStatus action) (JStr "update"))
                       (or_else (seen automationStatus message) (JStr "Updated"))
                       shot)))) ;;
    url <- lift (get data "url") ;;
    when (truthy url)
      (exec (on_local (setBrowserUrl url)) ;;
       exec (on_store (setUrl url)))
  else if is_case type "automation_complete" then
    exec (on_store (setAutomationStatus
                      (mkStatus (JStr "Complete") (JStr "Task finished")
                                (JStr "done") JUndefined JUndefined))) ;;
    exec (fun a => snd (setTimeout CbReset 2000 a))
  else if is_case type "automation_error" then
    err <- lift (get data "error") ;;
    exec (on_store (setAutomationStatus
                      (mkStatus (JStr "Error") err
                                (JStr "error") JUndefined JUndefined))) ;;
    exec (fun a => snd (setTimeout CbReset 3000 a))
  else if is_case type "pong" then
    ret tt
  else
    ret tt.

(** [ws.onmessage]: the body runs inside [try]; the [catch] clause only
    writes to the console. *)
Definition onmessage (automationStatus : option Status) (p : Payload) : JS unit :=
  try_catch (onmessage_try automationStatus p) (fun _ => ret tt).

Local Close Scope js_scope.

(** [ws.onopen], for the socket [ws]. *)
Definition onopen (ws : nat) (a : App) : App :=
  let a := on_refs (set_wsRef (Some ws)) a in
  let a := on_refs (set_isConnectingRef false) a in
  match reconnectTimeoutRef (refs a) with
  | Some id =>
      let a := on_browser (clearTimer id) a in
      on_refs (set_reconnectTimeoutRef None) a
  | None => a
  end.

(** [ws.onclose] *)
Definition onclose (a : App) : App :=
  let a := on_refs (set_wsRef None) a in
  let a := on_refs (set_isConnectingRef false) a in
  match reconnectTimeoutRef (refs a) with
  | Some _ => a
  | None =>
      let (id, a) := setTimeout CbReconnect 3000 a in
      on_refs (set_reconnectTimeoutRef (Some id)) a
  end.

(** [ws.onerror] *)
Definition onerror (a : App) : App :=
  on_refs (set_isConnectingRef false) a.

(** [connectWebSocket()]; the result is the value it returns. *)
Definition connectWebSocket (a : App) : option nat * App :=
  if isConnectingRef (refs a) || is_open (browser a) (wsRef (refs a)) then
    (wsRef (refs a), a)
  else
    let a := on_refs (set_isConnectingRef true) a in
    let (ws, b) := newWebSocket (browser a) in
    (Some ws, on_browser (fun _ => b) a).

(** The timer callbacks. *)
Definition run_callback (cb : Callback) (a : App) : App :=
  match cb with
  | CbReconnect =>
      let a := on_refs (set_reconnectTimeoutRef None) a in
      snd (connectWebSocket a)
  | CbReset => on_store resetAutomationState a
  | CbPing =>
      if is_open (browser a) (wsRef (refs a)) then
        match wsRef (refs a) with
        | Some ws => on_browser (ws_send ws "ping") a
        | None => a
        end
      else a
  end.

(** The mount effect and the cleanup it returns. *)
Definition mountEffect (a : App) : App :=
  let (ws, a) := connectWebSocket a in
  let (pid, a) := setInterval CbPing 30000 a in
  set_effect (mkEffect ws (Some pid)) a.

Definition cleanup (a : App) : App :=
  match pingInterval (effect a) with
  | None => a
  | Some pid =>
      let ws := effectWs (effect a) in
      let a := on_browser (clearTimer pid) a in
      let a := match reconnectTimeoutRef (refs a) with
               | Some id => on_browser (clearTimer id) a
               | None => a
               end in
      let a := if is_open (browser a) ws then
                 match ws with
                 | Some sid => on_browser (ws_close sid) a
                 | None => a
                 end
               else a in
      set_effect (mkEffect None None) a
  end.

(** ** [handleSend] *)

(** [Date.now()] *)
Definition now (a : App) : JsVal := JNum (Z.of_N (clock (browser a))).

(** The condition of the block commented "Immediately show automation
    indicator for automate mode". *)
Definition optimisticCondition (currentMode input : string) : bool :=
  String.eqb currentMode "automate"
  || includes (toLowerCase input) "navigate"
  || includes (toLowerCase input) "go to"
  || includes (toLowerCase input) "open".

Definition placeholderStatus : Status :=
  mkStatus (JStr "Working...") (JStr "Preparing to assist you")
           JUndefined JUndefined JUndefined.

(** The block itself: the local optimistic trigger. *)
Definition optimisticStart (currentMode input : string) (s : Store) : Store :=
  if optimisticCondition currentMode input then
    setAutomationStatus placeholderStatus (setIsAutomating true s)
  else s.

(** [handleSend] up to its first [await].  [input], [isLoading] and
    [currentMode] are the variables of the render that created the
    function. *)
Definition handleSend (input : string) (isLoading : bool) (currentMode : string)
  (a : App) : App :=
  if String.eqb (trim input) "" || isLoading then a
  else
    let userMessage :=
      JObj [("id", now a); ("role", JStr "user"); ("content", JStr input);
            ("mode", JStr currentMode); ("timestamp", now a)] in
    let a := on_store (addMessage userMessage) a in
    let a := on_local (setInput "") a in
    let a := on_local (setIsLoading true) a in
    on_store (optimisticStart currentMode input) a.

(** [handleSend] as created by the render of the current state. *)
Definition handleSendNow (a : App) : App :=
  handleSend (input (local a)) (isLoading (local a)) (currentMode (store a)) a.

Local Open Scope js_scope.

Definition plus_one (v : JsVal) : JsVal :=
  match v with
  | JNum n => JNum (n + 1)
  | _ => v
  end.

(** The rest of [handleSend], run when the request settles with
    [response]: the parsed body, or an abrupt completion of [fetch] or
    [response.json()]. *)
Definition handleSendSettled (currentMode : string) (response : Completion JsVal)
  : JS unit :=
  finally
    (try_catch
       (data <- lift response ;;
        shot <- lift (get data "screenshot") ;;
        when (truthy shot)
          (src <- lift (dataUrl shot) ;;
           exec (on_local (setBrowserScreenshot src))) ;;
        content <- lift (get data "response") ;;
        citations <- lift (get data "citations") ;;
        suggested <- lift (get data "suggestedActions") ;;
        reasoning <- lift (get data "reasoning") ;;
        confidence <- lift (get data "confidence") ;;
        exec (fun a =>
          on_store (addMessage
            (JObj [("id", plus_one (now a)); ("role", JStr "assistant");
                   ("content", content); ("citations", citations);
                   ("suggestedActions", suggested); ("reasoning", reasoning);
                   ("confidence", confidence); ("mode", JStr currentMode);
                   ("timestamp", now a)])) a))
       (fun _ =>
        exec (fun a =>
          on_store (addMessage
            (JObj [("id", plus_one (now a)); ("role", JStr "assistant");
                   ("content",
                    JStr "Sorry, I encountered an error. Please try again.");
                   ("error", JBool true); ("timestamp", now a)])) a)))
    (exec (on_local (setIsLoading false))).

Local Close Scope js_scope.

(** ** The event loop *)

(** What the browser and the user can do to the instance.  Each event
    runs one handler to completion. *)
Inductive Event : Type :=
| Mount                                   (* React runs the mount effect *)
| Unmount                                 (* React runs its cleanup *)
| WsOpen (ws : nat)
| WsMessage (ws : nat) (p : Payload)
| WsClose (ws : nat)
| WsError (ws : nat)
| Elapse (ms : N)                         (* time passes *)
| Fire (id : positive)                    (* a due timer runs *)
| Typed (text : string)                   (* onChange of the input box *)
| ModeSelected (mode : string)            (* ModeSelector *)
| Send                                    (* the send button or Enter *)
| ChatSettled (mode : string) (response : Completion JsVal).

Definition exists_socket (ws : nat) (a : App) : bool :=
  match nth_error (sockets (browser a)) ws with
  | Some _ => true
  | None => false
  end.

Definition advance (ms : N) (b : Browser) : Browser :=
  mkBrowser (sockets b) (timers b) (nextTimer b) (clock b + ms) (outbox b).

(** One run of a pending timer: a timeout is removed, an interval is
    re-armed; nothing runs before the timer is due. *)
Definition rearm (id : positive) (t : Timer) : list Timer :=
  if is_timer id t then
    match period t with
    | Some p => [mkTimer (tid t) (due t + p) (period t) (callback t)]
    | None => []
    end
  else [t].

Definition fire (id : positive) (a : App) : App :=
  match find (is_timer id) (timers (browser a)) with
  | Some t =>
      if N.leb (due t) (clock (browser a)) then
        let a := on_browser
                   (fun b => set_timers (flat_map (rearm id) (timers b)) b) a in
        run_callback (callback t) a
      else a
  | None => a
  end.

(** Uncaught exceptions of a handler are reported by the browser and
    the loop goes on with the state the handler left. *)
Definition run_js (m : JS unit) (a : App) : App := snd (m a).

Definition deliver (a : App) (e : Event) : App :=
  match e with
  | Mount => mountEffect a
  | Unmount => cleanup a
  | WsOpen ws =>
      if exists_socket ws a
      then onopen ws (on_browser (set_readyState ws OPEN) a) else a
  | WsMessage ws p =>
      if exists_socket ws a
      then run_js (onmessage (seenStatus a) p) a else a
  | WsClose ws =>
      if exists_socket ws a
      then onclose (on_browser (set_readyState ws CLOSED) a) else a
  | WsError ws =>
      if exists_socket ws a then onerror a else a
  | Elapse ms => on_browser (advance ms) a
  | Fire id => fire id a
  | Typed text => on_local (setInput text) a
  | ModeSelected mode => on_store (setMode mode) a
  | Send => handleSendNow a
  | ChatSettled mode response => run_js (handleSendSettled mode response) a
  end.

Definition run (a : App) (trace : list Event) : App := fold_left deliver trace a.

(** The pending reconnect timers. *)
Definition is_reconnect (t : Timer) : bool :=
  match callback t with
  | CbReconnect => true
  | _ => false
  end.

Definition reconnectTimers (a : App) : list Timer :=
  filter is_reconnect (timers (browser a)).

(** ** Frames used in the examples *)

Definition frame (fields : list (string * JsVal)) : Payload := Json (JObj fields).

Definition startFrame (st msg : string) : Payload :=
  frame [("type", JStr "automation_start"); ("status", JStr st); ("message", JStr msg)].

Definition statusFrame (st msg act : string) (stp mx : Z) : Payload :=
  frame [("type", JStr "automation_status"); ("status", JStr st);
         ("message", JStr msg); ("action", JStr act);
         ("step", JNum stp); ("maxSteps", JNum mx)].

Definition imageFrame (img : string) : Payload :=
  frame [("type", JStr "screenshot_update"); ("screenshot", JStr img)].

Definition completeFrame : Payload := frame [("type", JStr "automation_complete")].


(** ** Vocabulary of the statements *)

(** The value [data.type] of a message, [undefined] when there is none. *)
Definition frameType (p : Payload) : JsVal :=
  match p with
  | Json v => get_opt v "type"
  | NotJson => JUndefined
  end.

(** The kinds that have a [case] with a body. *)
Definition knownKinds : list string :=
  ["automation_start"; "automation_status"; "screenshot_update";
   "automation_complete"; "automation_error"].

(** What a [screenshot_update] frame does, field by field. *)
Definition recordFor (st : option Status) (shot : JsVal) : Step :=
  mkStep (or_else (seen st action) (JStr "update"))
         (or_else (seen st message) (JStr "Updated"))
         shot.

Definition applyImage (st : option Status) (shot src : JsVal) (a : App) : App :=
  on_store (addAutomationStep (recordFor st shot))
           (on_local (setBrowserScreenshot src) a).

Definition applyLocation (url : JsVal) (a : App) : App :=
  if truthy url then on_store (setUrl url) (on_local (setBrowserUrl url) a)
  else a.

(** The whole [screenshot_update] case: a screenshot that cannot be
    printed throws before anything is set, and the location is then not
    reached. *)
Definition applyFrame (st : option Status) (shot url : JsVal) (a : App) : App :=
  if truthy shot then
    match dataUrl shot with
    | Normal src => applyLocation url (applyImage st shot src a)
    | Throw _ => a
    end
  else applyLocation url a.

(** The template literal can print the value. *)
Definition prints (v : JsVal) : bool :=
  match to_string v with
  | Normal _ => true
  | Throw _ => false
  end.

Definition imageUrl (img : string) : JsVal :=
  JStr (String.append "data:image/png;base64," img).

Definition kindFrame (kind : string) (fields : list (string * JsVal)) : Payload :=
  frame (("type", JStr kind) :: fields).

Definition bareStart : Payload := kindFrame "automation_start" [].
Definition bareError : Payload := kindFrame "automation_error" [].
Definition pongFrame : Payload := kindFrame "pong" [].

Definition progressClick : Payload :=
  statusFrame "Working..." "Clicking button" "click" 2 5.

Definition undefinedStatus : Status :=
  mkStatus JUndefined JUndefined JUndefined JUndefined JUndefined.

Definition imageFrames (ws : nat) (imgs : list string) : list Event :=
  map (fun i => WsMessage ws (imageFrame i)) imgs.

Definition eightImages : list string :=
  ["img1"; "img2"; "img3"; "img4"; "img5"; "img6"; "img7"; "img8"].

(** Reference states and traces. *)
Definition connected : App := run initialApp [Mount; WsOpen 0].

Definition taskStarted : App :=
  deliver connected (WsMessage 0 (startFrame "Working..." "Preparing")).

Definition progressing : App := deliver taskStarted (WsMessage 0 progressClick).

Definition closedOnce : App := deliver connected (WsClose 0).

Definition firstTask : list Event :=
  [Mount; WsOpen 0; Typed "open the docs"; Send;
   WsMessage 0 (startFrame "Working..." "Preparing");
   WsMessage 0 (imageFrame "AAAA");
   WsMessage 0 completeFrame;
   ChatSettled "assist" (Normal (JObj [("response", JStr "Done.")]))].

Definition secondSend : list Event := [Typed "open the pricing page"; Send].

Definition completedTask : list Event :=
  [Mount; WsOpen 0;
   WsMessage 0 (startFrame "Working..." "First task");
   WsMessage 0 completeFrame;
   Elapse 1000].

Definition supersededTask : list Event :=
  (completedTask
   ++ [WsMessage 0 (startFrame "Working..." "Second task"); Elapse 1000])%list.


Definition shutdown : list Event := [Mount; WsOpen 0; Unmount].

Definition afterShutdown : list Event :=
  (shutdown ++ [WsClose 0; Elapse 3000; Fire 2])%list.

Definition reconnectedThenShutdown : list Event :=
  [Mount; WsOpen 0; WsClose 0; Elapse 3000; Fire 2; WsOpen 1; Unmount].


Definition reconnectTimer (a : App) : Timer :=
  mkTimer (nextTimer (browser a)) (clock (browser a) + 3000) None CbReconnect.

(** The pending reconnect timers against the handle kept in
    [reconnectTimeoutRef]: there is none, or exactly the one the ref
    names, and it is a timeout. *)
Definition tracked (pending : list Timer) (ref : option positive) : Prop :=
  match pending with
  | [] => True
  | [t] => ref = Some (tid t) /\ period t = None
  | _ => False
  end.

Definition reconnect_inv (a : App) : Prop :=
  tracked (reconnectTimers a) (reconnectTimeoutRef (refs a)).

(** The three keyword tests of [handleSend]. *)
Definition mentionsNavigation (input : string) : bool :=
  includes (toLowerCase input) "navigate"
  || includes (toLowerCase input) "go to"
  || includes (toLowerCase input) "open".

Unset Implicit Arguments.

(** ** Further handlers of [App.jsx] *)

(** [v.startsWith(pat)]: only strings have the method; calling it on
    anything else is a TypeError. *)
Definition js_startsWith (v : JsVal) (pat : string) : Completion bool :=
  match v with
  | JStr s => Normal (startsWith pat s)
  | _ => Throw TypeError
  end.

(** A parameter with the default value [null]. *)
Definition default_null (v : JsVal) : JsVal :=
  match v with
  | JUndefined => JNull
  | _ => v
  end.

Local Open Scope js_scope.

(** [handleNavigate] up to its [await]; [browserUrl] is the variable of
    the render that created the function. *)
Definition handleNavigate (browserUrl urlToNavigate : JsVal) : JS unit :=
  let url := or_else (default_null urlToNavigate) browserUrl in
  if negb (truthy url) || is_case url "about:blank" then ret tt
  else
    http <- lift (js_startsWith url "http") ;;
    finalUrl <- lift (if http then Normal url else template "https://" url) ;;
    exec (on_local (setBrowserUrl finalUrl)) ;;
    exec (on_store (setUrl finalUrl)).

(** The rest of [handleNavigate], run when the request settles. *)
Definition handleNavigateSettled (response : Completion JsVal) : JS unit :=
  try_catch
    (data <- lift response ;;
     shot <- lift (get data "screenshot") ;;
     when (truthy shot)
       (src <- lift (dataUrl shot) ;;
        exec (on_local (setBrowserScreenshot src))))
    (fun _ => ret tt).


Local Close Scope js_scope.

Definition handleNavigateNow (urlToNavigate : JsVal) (a : App) : Completion unit * App :=
  handleNavigate (browserUrl (local a)) urlToNavigate a.

(** [handleKeyPress] of the message box. *)
Definition handleKeyPress (key : string) (shiftKey : bool) (a : App) : App :=
  if String.eqb key "Enter" && negb shiftKey then handleSendNow a else a.

(** The [disabled] attribute of the send button. *)
Definition sendDisabled (a : App) : bool :=
  String.eqb (trim (input (local a))) "" || isLoading (local a).

(** ** Mode tables ([ModeSelector.jsx], [ChatMessage.jsx]) *)

Inductive Icon : Type := MessageCircle | Search | Bot.

Record Mode : Type := mkMode {
  mode_id : string;
  mode_name : string;
  mode_icon : Icon;
  mode_color : string;
  mode_description : string
}.

Definition modes : list Mode :=
  [mkMode "assist" "Assist" MessageCircle
          "from-green-500 to-emerald-500" "Ask questions about pages";
   mkMode "research" "Research" Search
          "from-blue-500 to-purple-500" "Search web with citations";
   mkMode "automate" "Automate" Bot
          "from-orange-500 to-red-500" "Execute tasks automatically"].

(** [modes.find(m => m.id === currentMode)] *)
Definition currentModeData (currentMode : string) : option Mode :=
  find (fun m => String.eqb (mode_id m) currentMode) modes.

(** [getModeColor] of [ChatMessage]. *)
Definition getModeColor (mode : JsVal) : string :=
  if is_case mode "research" then "from-blue-500 to-purple-500"
  else if is_case mode "assist" then "from-green-500 to-emerald-500"
  else if is_case mode "automate" then "from-orange-500 to-red-500"
  else "from-comet-primary to-comet-accent".

(** ** Vocabulary of the further statements *)

(** Every pending timer has a handle older than the next one. *)
Definition timers_fresh (b : Browser) : Prop :=
  Forall (fun t => (tid t < nextTimer b)%positive) (timers b).

Definition is_reset (t : Timer) : bool :=
  match callback t with
  | CbReset => true
  | _ => false
  end.

(** Events that are not a complete or error frame. *)
Definition ends_task (e : Event) : bool :=
  match e with
  | WsMessage _ p =>
      is_case (frameType p) "automation_complete"
      || is_case (frameType p) "automation_error"
  | _ => false
  end.

Definition is_open_event (e : Event) : bool :=
  match e with
  | WsOpen _ => true
  | _ => false
  end.




Definition userMessage (a : App) (input currentMode : string) : JsVal :=
  JObj [("id", now a); ("role", JStr "user"); ("content", JStr input);
        ("mode", JStr currentMode); ("timestamp", now a)].

Definition blank (s : string) : bool := forallb is_ws (chars s).

(** A socket closes and [ms] milliseconds pass. *)
Definition closedFor (ws : nat) (ms : N) (a : App) : App :=
  run a [WsClose ws; Elapse ms].




(** Events of the transport: the effect and the socket callbacks other
    than [onmessage]. *)
Definition is_transport (e : Event) : bool :=
  match e with
  | Mount | Unmount | WsOpen _ | WsClose _ | WsError _ | Elapse _ => true
  | _ => false
  end.

Definition no_reset_pending (a : App) : bool :=
  forallb (fun t => negb (is_reset t)) (timers (browser a)).

Definition is_ping (a : App) (m : nat * string) : Prop :=
  snd m = "ping" /\ fst m < List.length (sockets (browser a)).

Definition is_default_record (r : Step) : Prop :=
  step_action r = JStr "update" /\ step_message r = JStr "Updated"
  /\ truthy (step_screenshot r) = true.

Definition pings_only (a : App) : Prop :=
  Forall (is_ping a) (outbox (browser a)).


(** A response the handler cannot read: the request failed, or the body
    is [null]. *)
Definition unusable (response : Completion JsVal) : bool :=
  match response with
  | Throw _ | Normal JNull | Normal JUndefined => true
  | Normal _ => false
  end.

(** Every number the template literal would print is a safe integer,
    so that the printed text is the one JavaScript gives. *)
Fixpoint printable (v : JsVal) : bool :=
  match v with
  | JNum n => safe_integer n
  | JArr items => forallb printable items
  | _ => true
  end.

(** A response the continuation of [handleSend] cannot use: it is
    unreadable, or its screenshot is truthy and cannot be printed. *)
Definition answer_fails (response : Completion JsVal) : bool :=
  match response with
  | Throw _ => true
  | Normal data =>
      unusable response
      || (truthy (get_opt data "screenshot")
          && negb (prints (get_opt data "screenshot")))
  end.

Definition apology : JsVal :=
  JStr "Sorry, I encountered an error. Please try again.".

(** The URL [handleNavigate] settles on for a string. *)
Definition normalizedUrl (s : string) : string :=
  if startsWith "http" s then s else String.append "https://" s.

Definition navigated (s : string) (a : App) : App :=
  on_store (setUrl (JStr (normalizedUrl s)))
           (on_local (setBrowserUrl (JStr (normalizedUrl s))) a).

Definition is_string (v : JsVal) : bool :=
  match v with
  | JStr _ => true
  | _ => false
  end.

Definition defaultModeColor : string := "from-comet-primary to-comet-accent".

(** The invariant of the handlers' view: they see no status, and every
    record carries the fallback texts. *)
Definition records_default (a : App) : Prop :=
  seenStatus a = None /\ Forall is_default_record (automationSteps (store a)).

(** The ref names a timer that is no longer pending. *)
Definition ref_is_stale (a : App) : Prop :=
  reconnectTimeoutRef (refs a) <> None /\ reconnectTimers a = [].



(** * Properties *)

Ltac js_unfold :=
  unfold onmessage, onmessage_try, try_catch, bind, lift, exec, ret, when,
    dataUrl, template.

Ltac js_cases :=
  repeat match goal with
         | |- context [if ?c then _ else _] => destruct c eqn:?
         | |- context [to_string ?v] => destruct (to_string v) eqn:?
         end.

Ltac js_run :=
  js_unfold; unfold run_js, kindFrame, frame, dataUrl, template; cbn.

Ltac onmessage_cases p :=
  destruct p as [|[]]; try reflexivity; js_run; js_cases; reflexivity.

(** ** Traces *)

Lemma run_cons (a : App) (e : Event) (t : list Event) :
  run a (e :: t) = run (deliver a e) t.
Proof. reflexivity. Qed.


(** ** The message handler, kind by kind *)

Lemma get_total (v : JsVal) (k k' : string) (x : JsVal) :
  get v k = Normal x -> get v k' = Normal (get_opt v k').
Proof. destruct v; cbn; intros H; try discriminate; reflexivity. Qed.

(** The body can only throw before it has changed anything. *)
Lemma onmessage_try_throw (st : option Status) (p : Payload) (a a' : App) (e : Exn) :
  onmessage_try st p a = (Throw e, a') -> a' = a.
Proof.
  js_unfold. destruct p as [|data]; cbn.
  - intros H; inversion H; reflexivity.
  - destruct (get data "type") as [type|e0] eqn:Ht.
    + rewrite !(get_total data "type" _ type Ht).
      unfold dataUrl, template.
      js_cases; cbn; intros H; inversion H; reflexivity.
    + intros H; inversion H; reflexivity.
Qed.

Lemma onmessage_normal (st : option Status) (p : Payload) (a : App) :
  fst (onmessage st p a) = Normal tt.
Proof.
  unfold onmessage, try_catch.
  destruct (onmessage_try st p a) as [[[]|e] a']; reflexivity.
Qed.

Lemma is_case_excl (v : JsVal) (k k' : string) :
  is_case v k = true -> String.eqb k k' = false -> is_case v k' = false.
Proof.
  destruct v; cbn; try discriminate.
  intros H1 H2. apply String.eqb_eq in H1. subst. exact H2.
Qed.

Ltac other_case H :=
  repeat match goal with
         | |- context [is_case ?v ?k] =>
             rewrite (is_case_excl v _ k H eq_refl)
         end.

Lemma onmessage_start (st : option Status) (fs : list (string * JsVal)) (a : App) :
  is_case (assoc "type" fs) "automation_start" = true ->
  run_js (onmessage st (frame fs)) a =
  on_store (fun s => setAutomationStatus
                       (mkStatus (assoc "status" fs) (assoc "message" fs)
                                 JUndefined JUndefined JUndefined)
                       (clearAutomationSteps (setIsAutomating true s))) a.
Proof. intros H. js_run. rewrite H. reflexivity. Qed.


Lemma onmessage_screenshot (st : option Status) (fs : list (string * JsVal)) (a : App) :
  is_case (assoc "type" fs) "screenshot_update" = true ->
  run_js (onmessage st (frame fs)) a =
  applyFrame st (assoc "screenshot" fs) (assoc "url" fs) a.
Proof.
  intros H. js_run. other_case H. rewrite H.
  unfold applyFrame, applyLocation, applyImage, dataUrl, template.
  destruct (truthy (assoc "screenshot" fs)); cbn;
    [destruct (to_string (assoc "screenshot" fs)); cbn|];
    destruct (truthy (assoc "url" fs)); reflexivity.
Qed.


Lemma onmessage_error (st : option Status) (fs : list (string * JsVal)) (a : App) :
  is_case (assoc "type" fs) "automation_error" = true ->
  run_js (onmessage st (frame fs)) a =
  snd (setTimeout CbReset 3000
         (on_store (setAutomationStatus
                      (mkStatus (JStr "Error") (assoc "error" fs)
                                (JStr "error") JUndefined JUndefined)) a)).
Proof. intros H. js_run. other_case H. rewrite H. reflexivity. Qed.

(** [pong], unknown kinds, and payloads that are not objects. *)
Lemma onmessage_ignored (st : option Status) (p : Payload) (a : App) :
  forallb (fun k => negb (is_case (frameType p) k)) knownKinds = true ->
  run_js (onmessage st p) a = a.
Proof.
  unfold knownKinds; cbn [forallb]. rewrite !andb_true_iff, !negb_true_iff.
  intros (H1 & H2 & H3 & H4 & H5 & _).
  destruct p as [|data]; [reflexivity|].
  destruct data; try reflexivity.
  cbn [frameType get_opt] in *. js_run.
  rewrite H1, H2, H3, H4, H5. js_cases; reflexivity.
Qed.

(** What a message cannot touch. *)
Lemma onmessage_seenStatus (st : option Status) (p : Payload) (a : App) :
  seenStatus (run_js (onmessage st p) a) = seenStatus a.
Proof. onmessage_cases p. Qed.

Lemma onmessage_refs (st : option Status) (p : Payload) (a : App) :
  refs (run_js (onmessage st p) a) = refs a.
Proof. onmessage_cases p. Qed.

(** A message adds at most one timer, a reset, and removes none. *)
Lemma onmessage_timers (st : option Status) (p : Payload) (a : App) :
  timers (browser (run_js (onmessage st p) a)) = timers (browser a)
  \/ exists t, callback t = CbReset
       /\ timers (browser (run_js (onmessage st p) a))
          = (timers (browser a) ++ [t])%list.
Proof.
  destruct p as [|[]]; try (left; reflexivity); js_run; js_cases;
    try (left; reflexivity); right; eexists; split; try reflexivity; reflexivity.
Qed.


Lemma onmessage_isAutomating (st : option Status) (p : Payload) (a : App) :
  is_case (frameType p) "automation_start" = false ->
  isAutomating (store (run_js (onmessage st p) a)) = isAutomating (store a).
Proof.
  intros H. destruct p as [|[]]; try reflexivity.
  cbn [frameType get_opt] in H. js_run. rewrite H. js_cases; reflexivity.
Qed.

Lemma handleSendSettled_fields (m : string) (r : Completion JsVal) (a : App) :
  seenStatus (run_js (handleSendSettled m r) a) = seenStatus a
  /\ refs (run_js (handleSendSettled m r) a) = refs a
  /\ browser (run_js (handleSendSettled m r) a) = browser a
  /\ session (store (run_js (handleSendSettled m r) a)) = session (store a).
Proof.
  unfold run_js, handleSendSettled, finally, try_catch, bind, lift, exec, ret, when,
    dataUrl, template.
  destruct r as [[]|e]; cbn; js_cases; cbn; repeat split.
Qed.

(** ** The status the handlers see *)

Lemma connectWebSocket_seenStatus (a : App) :
  seenStatus (snd (connectWebSocket a)) = seenStatus a.
Proof. unfold connectWebSocket. js_cases; reflexivity. Qed.

Lemma run_callback_seenStatus (cb : Callback) (a : App) :
  seenStatus (run_callback cb a) = seenStatus a.
Proof.
  destruct cb; cbn; [now rewrite connectWebSocket_seenStatus|reflexivity|].
  destruct (is_open _ _); [destruct (wsRef _)|]; reflexivity.
Qed.

Lemma deliver_seenStatus (a : App) (e : Event) :
  seenStatus (deliver a e) = seenStatus a.
Proof.
  destruct e; cbn [deliver]; try reflexivity.
  - unfold mountEffect.
    pose proof (connectWebSocket_seenStatus a) as H.
    destruct (connectWebSocket a) as [ws a1]. cbn in *. exact H.
  - unfold cleanup. destruct (pingInterval (effect a)); [|reflexivity]. cbn.
    destruct (reconnectTimeoutRef (refs a)); cbn;
      destruct (is_open _ _); try reflexivity;
      destruct (effectWs (effect a)); reflexivity.
  - destruct (exists_socket ws a); [|reflexivity].
    unfold onopen; cbn. destruct (reconnectTimeoutRef (refs a)); reflexivity.
  - destruct (exists_socket ws a); [|reflexivity]. apply onmessage_seenStatus.
  - destruct (exists_socket ws a); [|reflexivity].
    unfold onclose; cbn. destruct (reconnectTimeoutRef (refs a)); reflexivity.
  - destruct (exists_socket ws a); reflexivity.
  - unfold fire. destruct (find _ _) as [t|]; [|reflexivity].
    destruct (N.leb _ _); [|reflexivity]. now rewrite run_callback_seenStatus.
  - unfold handleSendNow, handleSend. js_cases; reflexivity.
  - apply handleSendSettled_fields.
Qed.

(** Whatever happens, the handlers keep reading the status of the
    first render. *)
Lemma seenStatus_run (a : App) (trace : list Event) :
  seenStatus (run a trace) = seenStatus a.
Proof.
  revert a. induction trace as [|e trace IH]; intros a; [reflexivity|].
  rewrite run_cons, IH. apply deliver_seenStatus.
Qed.

(** ** History *)

Lemma image_frame_appends (ws : nat) (i : string) (a : App) :
  exists_socket ws a = true -> i <> "" ->
  deliver a (WsMessage ws (imageFrame i)) =
  on_store (addAutomationStep (recordFor (seenStatus a) (JStr i)))
           (on_local (setBrowserScreenshot (imageUrl i)) a).
Proof.
  intros Hs Hi. cbn [deliver]. rewrite Hs.
  unfold imageFrame. rewrite onmessage_screenshot by reflexivity.
  cbn [assoc String.eqb Ascii.eqb Bool.eqb].
  unfold applyFrame, applyLocation, applyImage.
  cbn [truthy]. apply String.eqb_neq in Hi. rewrite Hi. reflexivity.
Qed.

(** Every image frame adds one record at the tail and drops none,
    however many arrive. *)
Lemma image_frames_steps (ws : nat) (imgs : list string) (a : App) :
  exists_socket ws a = true -> Forall (fun i => i <> "") imgs ->
  automationSteps (store (run a (imageFrames ws imgs))) =
  (automationSteps (store a)
   ++ map (fun i => recordFor (seenStatus a) (JStr i)) imgs)%list.
Proof.
  intros Hs Hall. revert a Hs.
  induction Hall as [|i imgs Hi _ IH]; intros a Hs.
  - cbn. now rewrite app_nil_r.
  - change (imageFrames ws (i :: imgs))
      with (WsMessage ws (imageFrame i) :: imageFrames ws imgs).
    rewrite run_cons, image_frame_appends by assumption.
    rewrite IH by exact Hs. cbn. now rewrite <- app_assoc.
Qed.

Lemma slice_last_length {A} (n : nat) (l : list A) :
  0 < n -> n <= List.length l -> List.length (slice_last n l) = n.
Proof.
  intros Hn H. destruct n as [|n]; [lia|].
  unfold slice_last. rewrite length_skipn. lia.
Qed.

(** C1: the store appends without a cap.  [addAutomationStep] always
    lengthens the history by one, so the eight image frames of a
    running task leave eight records, not five; [slice(-3)] then shows
    the three most recent ones. *)
Theorem history_is_not_capped :
  (forall (x : Step) (s : Store),
      automationSteps (addAutomationStep x s)
      = (automationSteps s ++ [x])%list
      /\ List.length (automationSteps (addAutomationStep x s))
         = S (List.length (automationSteps s)))
  /\ List.length (automationSteps
                    (store (run taskStarted (imageFrames 0 eightImages)))) = 8
  /\ visibleSteps (store (run taskStarted (imageFrames 0 eightImages)))
     = map (recordFor None) [JStr "img6"; JStr "img7"; JStr "img8"].
Proof.
  split; [|split].
  - intros x s. split; [reflexivity|]. cbn. rewrite length_app. cbn. lia.
  - reflexivity.
  - reflexivity.
Qed.

(** C8: a frame event leaves [isAutomating] and [automationStatus]
    alone and adds a record only for an image (one the template literal
    can print), but the record does not
    carry the latest progress text: the handler reads the status of the
    first render, which is [null], so after a progress event with
    action "click" and message "Clicking button" the record of the next
    image is {action: "update", message: "Updated"}. *)
Theorem frame_record_ignores_latest_progress :
  (forall trace : list Event, seenStatus (run initialApp trace) = None)
  /\ (forall (st : option Status) (fs : list (string * JsVal)) (a : App),
         session (store (run_js (onmessage st (kindFrame "screenshot_update" fs)) a))
         = (isAutomating (store a), automationStatus (store a),
            if truthy (assoc "screenshot" fs) && prints (assoc "screenshot" fs)
            then (automationSteps (store a)
                  ++ [recordFor st (assoc "screenshot" fs)])%list
            else automationSteps (store a)))
  /\ automationStatus (store progressing)
     = Some (mkStatus (JStr "Working...") (JStr "Clicking button")
                      (JStr "click") (JNum 2) (JNum 5))
  /\ automationSteps (store (deliver progressing (WsMessage 0 (imageFrame "AAAA"))))
     = [mkStep (JStr "update") (JStr "Updated") (JStr "AAAA")].
Proof.
  split; [|split; [|split]].
  - intros trace. now rewrite seenStatus_run.
  - intros st fs a. unfold kindFrame.
    rewrite onmessage_screenshot by reflexivity.
    cbn [assoc String.eqb Ascii.eqb Bool.eqb].
    unfold applyFrame, applyLocation, applyImage, prints, dataUrl, template.
    destruct (truthy (assoc "screenshot" fs));
      [destruct (to_string (assoc "screenshot" fs))|];
      destruct (truthy (assoc "url" fs)); reflexivity.
  - reflexivity.
  - reflexivity.
Qed.

(** ** Frames with missing fields *)

(** C2, as stated, fails: a start frame with neither [status] nor
    [message] changes the session status. *)
Lemma start_without_fields_changes_status :
  session (store (deliver connected (WsMessage 0 bareStart)))
  <> session (store connected).
Proof. cbn. discriminate. Qed.

(** C2, amended: the handler never completes abruptly; a frame whose
    body throws (not JSON, or [null]) leaves the state as it was; a
    frame that lacks a field is handled like any other of its kind, the
    field reading [undefined]. *)
Theorem frames_are_not_validated :
  (forall (st : option Status) (p : Payload) (a : App),
      fst (onmessage st p a) = Normal tt)
  /\ (forall (st : option Status) (p : Payload) (a a' : App) (e : Exn),
         onmessage_try st p a = (Throw e, a') ->
         a' = a /\ run_js (onmessage st p) a = a)
  /\ (forall (st : option Status) (fs : list (string * JsVal)) (a : App),
         is_case (assoc "type" fs) "automation_start" = true ->
         assoc "status" fs = JUndefined ->
         assoc "message" fs = JUndefined ->
         store (run_js (onmessage st (frame fs)) a)
         = setAutomationStatus undefinedStatus
             (clearAutomationSteps (setIsAutomating true (store a))))
  /\ (forall (st : option Status) (fs : list (string * JsVal)) (a : App),
         is_case (assoc "type" fs) "automation_error" = true ->
         assoc "error" fs = JUndefined ->
         store (run_js (onmessage st (frame fs)) a)
         = setAutomationStatus
             (mkStatus (JStr "Error") JUndefined (JStr "error")
                       JUndefined JUndefined) (store a)).
Proof.
  split; [|split; [|split]].
  - apply onmessage_normal.
  - intros st p a a' e H.
    pose proof (onmessage_try_throw st p a a' e H) as ->. split; [reflexivity|].
    unfold run_js, onmessage, try_catch. now rewrite H.
  - intros st fs a Ht Hs Hm. rewrite onmessage_start by exact Ht.
    cbn. now rewrite Hs, Hm.
  - intros st fs a Ht He. rewrite onmessage_error by exact Ht.
    cbn. now rewrite He.
Qed.

Lemma frames_are_not_validated_witness :
  (onmessage_try None NotJson connected = (Throw SyntaxError, connected)
   /\ run_js (onmessage None NotJson) connected = connected)
  /\ store (run_js (onmessage None bareStart) connected)
     = setAutomationStatus undefinedStatus
         (clearAutomationSteps (setIsAutomating true (store connected)))
  /\ store (run_js (onmessage None bareError) taskStarted)
     = setAutomationStatus
         (mkStatus (JStr "Error") JUndefined (JStr "error")
                   JUndefined JUndefined) (store taskStarted).
Proof.
  destruct frames_are_not_validated as (_ & Hthrow & Hstart & Herror).
  split; [split; [reflexivity|]|split].
  - apply (Hthrow None NotJson connected connected SyntaxError). reflexivity.
  - apply (Hstart None [("type", JStr "automation_start")] connected);
      reflexivity.
  - apply (Herror None [("type", JStr "automation_error")] taskStarted);
      reflexivity.
Defined.

(** ** Events while idle *)

(** C3, as stated, fails: a progress event that arrives while
    [isAutomating] is false sets [automationStatus], so a reachable idle
    state has a headline. *)
Lemma progress_while_idle_sets_status :
  isAutomating (store connected) = false
  /\ isAutomating (store (deliver connected (WsMessage 0 progressClick))) = false
  /\ automationStatus (store (deliver connected (WsMessage 0 progressClick)))
     <> None
  /\ session (store (deliver connected (WsMessage 0 progressClick)))
     <> session (store connected).
Proof. cbn. repeat split; discriminate. Qed.

(** C3, amended: no event other than start changes [isAutomating];
    [pong], unknown kinds and payloads that are not objects change
    nothing at all; the session is clean (no status, no steps) at
    startup and right after every [resetAutomationState]. *)
Theorem only_start_leaves_idle :
  (forall (st : option Status) (p : Payload) (a : App),
      is_case (frameType p) "automation_start" = false ->
      isAutomating (store (run_js (onmessage st p) a)) = isAutomating (store a))
  /\ (forall (st : option Status) (p : Payload) (a : App),
         forallb (fun k => negb (is_case (frameType p) k)) knownKinds = true ->
         run_js (onmessage st p) a = a)
  /\ idle_clean initialStore
  /\ (forall s : Store, idle_clean (resetAutomationState s)).
Proof.
  split; [|split; [|split]].
  - apply onmessage_isAutomating.
  - apply onmessage_ignored.
  - repeat split.
  - intros s. repeat split.
Qed.

Lemma only_start_leaves_idle_witness :
  isAutomating (store (run_js (onmessage None progressClick) connected))
  = isAutomating (store connected)
  /\ run_js (onmessage None pongFrame) connected = connected.
Proof.
  destruct only_start_leaves_idle as (Hkeep & Hignore & _).
  split.
  - apply (Hkeep None progressClick connected). reflexivity.
  - apply (Hignore None pongFrame connected). reflexivity.
Defined.

(** ** The optimistic trigger *)

Lemma optimisticStart_steps (m i : string) (s : Store) :
  automationSteps (optimisticStart m i s) = automationSteps s.
Proof. unfold optimisticStart. destruct (optimisticCondition m i); reflexivity. Qed.

(** C4: the start event clears the history, the local trigger does
    not.  A second task submitted right after the first has finished
    shows the placeholder status over the first task's record. *)
Theorem optimistic_start_keeps_history :
  (forall (m i : string) (s : Store),
      automationSteps (optimisticStart m i s) = automationSteps s)
  /\ (forall (i m : string) (l : bool) (a : App),
         automationSteps (store (handleSend i l m a)) = automationSteps (store a))
  /\ (forall (st : option Status) (s m : string) (a : App),
         automationSteps (store (run_js (onmessage st (startFrame s m)) a)) = [])
  /\ session (store (run (run initialApp firstTask) secondSend))
     = (true, Some placeholderStatus,
        [mkStep (JStr "update") (JStr "Updated") (JStr "AAAA")]).
Proof.
  split; [|split; [|split]].
  - apply optimisticStart_steps.
  - intros i m l a. unfold handleSend. destruct (_ || _); [reflexivity|].
    cbn. now rewrite optimisticStart_steps.
  - intros st s m a. unfold startFrame. now rewrite onmessage_start.
  - reflexivity.
Qed.

(** Once the trigger has fired, firing it again changes nothing in
    the session; a second [handleSend] leaves the session of the first
    as it is, whatever it was called with, and none at all happens when
    it is called from the next render; [handleSend] never turns
    [isAutomating] off. *)
Lemma optimistic_trigger_laws :
  (forall (m1 i1 m2 i2 : string) (s : Store),
      optimisticCondition m1 i1 = true ->
      optimisticCondition m2 i2 = true ->
      optimisticStart m2 i2 (optimisticStart m1 i1 s) = optimisticStart m1 i1 s)
  /\ (forall (i1 m1 i2 m2 : string) (l2 : bool) (a : App),
         trim i1 <> "" ->
         optimisticCondition m1 i1 = true ->
         session (store (handleSend i2 l2 m2 (handleSend i1 false m1 a)))
         = session (store (handleSend i1 false m1 a)))
  /\ (forall a : App, handleSendNow (handleSendNow a) = handleSendNow a)
  /\ (forall (i m : string) (l : bool) (a : App),
         isAutomating (store a) = true ->
         isAutomating (store (handleSend i l m a)) = true).
Proof.
  split; [|split; [|split]].
  - intros m1 i1 m2 i2 s H1 H2. unfold optimisticStart. now rewrite H1, H2.
  - intros i1 m1 i2 m2 l2 a Ht H1.
    apply String.eqb_neq in Ht.
    unfold handleSend at 2 3. rewrite Ht. cbn [orb].
    unfold handleSend. destruct (_ || _); [reflexivity|].
    cbn. unfold optimisticStart. rewrite H1.
    destruct (optimisticCondition m2 i2); reflexivity.
  - intros a. unfold handleSendNow at 2 3. unfold handleSend.
    destruct ((trim (input (local a)) =? "") || isLoading (local a)) eqn:Hg.
    + unfold handleSendNow, handleSend. now rewrite Hg.
    + reflexivity.
  - intros i m l a H. unfold handleSend. destruct (_ || _); [exact H|].
    cbn. unfold optimisticStart.
    destruct (optimisticCondition m i); [reflexivity|exact H].
Qed.

(** ** Reconnection *)

Lemma tracked_filter (f : Timer -> bool) (pending : list Timer) (ref : option positive) :
  tracked pending ref -> tracked (filter f pending) ref.
Proof.
  destruct pending as [|t [|t' rest]]; cbn; try tauto.
  destruct (f t); cbn; tauto.
Qed.

Lemma tracked_length (pending : list Timer) (ref : option positive) :
  tracked pending ref -> List.length pending <= 1.
Proof. destruct pending as [|t [|t' rest]]; cbn; intros; try lia; tauto. Qed.

Lemma filter_comm {A} (f g : A -> bool) (l : list A) :
  filter f (filter g l) = filter g (filter f l).
Proof.
  induction l as [|x l IH]; cbn; [reflexivity|].
  destruct (f x) eqn:Hf, (g x) eqn:Hg; cbn; rewrite ?Hf, ?Hg, IH; reflexivity.
Qed.

Lemma reconnectTimers_clearTimer (id : positive) (a : App) :
  reconnectTimers (on_browser (clearTimer id) a)
  = filter (fun t => negb (is_timer id t)) (reconnectTimers a).
Proof. unfold reconnectTimers; cbn. apply filter_comm. Qed.

Lemma connectWebSocket_timers (a : App) :
  timers (browser (snd (connectWebSocket a))) = timers (browser a)
  /\ reconnectTimeoutRef (refs (snd (connectWebSocket a)))
     = reconnectTimeoutRef (refs a).
Proof. unfold connectWebSocket. js_cases; split; reflexivity. Qed.

Lemma reconnect_inv_connect (a : App) :
  reconnect_inv a -> reconnect_inv (snd (connectWebSocket a)).
Proof.
  unfold reconnect_inv, reconnectTimers.
  destruct (connectWebSocket_timers a) as [-> ->]. tauto.
Qed.

Lemma reconnect_inv_onopen (ws : nat) (a : App) :
  reconnect_inv a -> reconnect_inv (onopen ws a).
Proof.
  unfold reconnect_inv, onopen, reconnectTimers; cbn.
  destruct (reconnectTimeoutRef (refs a)) as [id|] eqn:Href; cbn;
    [|now rewrite Href].
  rewrite filter_comm.
  destruct (filter is_reconnect (timers (browser a))) as [|t [|t' rest]]; cbn;
    try tauto.
  intros [H _]. inversion H; subst. unfold is_timer. now rewrite Pos.eqb_refl.
Qed.

Lemma reconnect_inv_onclose (a : App) :
  reconnect_inv a -> reconnect_inv (onclose a).
Proof.
  unfold reconnect_inv, onclose; cbn.
  destruct (reconnectTimeoutRef (refs a)) as [id|] eqn:Href; cbn.
  - unfold reconnectTimers; cbn. now rewrite Href.
  - unfold reconnectTimers; cbn. rewrite filter_app; cbn.
    destruct (filter is_reconnect (timers (browser a))) as [|t [|t' rest]]; cbn.
    + intros _. split; reflexivity.
    + intros [H _]; discriminate.
    + tauto.
Qed.

Lemma rearm_reconnect (id : positive) (ts : list Timer) :
  (forall t, In t ts -> is_reconnect t = true -> period t = None) ->
  filter is_reconnect (flat_map (rearm id) ts)
  = filter (fun t => negb (is_timer id t)) (filter is_reconnect ts).
Proof.
  induction ts as [|t ts IH]; intros Hp; [reflexivity|].
  cbn [flat_map]. rewrite filter_app, IH by (intros; apply Hp; cbn; auto).
  cbn [filter]. unfold rearm.
  destruct (is_timer id t) eqn:Hid.
  - destruct (is_reconnect t) eqn:Hr.
    + rewrite (Hp t) by (cbn; auto). cbn. now rewrite Hid.
    + destruct (period t); cbn; [|reflexivity].
      unfold is_reconnect in *; cbn. now rewrite Hr.
  - cbn. destruct (is_reconnect t); cbn; [now rewrite Hid|reflexivity].
Qed.

Lemma tracked_periods (a : App) :
  reconnect_inv a ->
  forall t, In t (timers (browser a)) -> is_reconnect t = true ->
            period t = None /\ reconnectTimeoutRef (refs a) = Some (tid t).
Proof.
  unfold reconnect_inv, reconnectTimers. intros H t Hin Hr.
  assert (Hin' : In t (filter is_reconnect (timers (browser a))))
    by (apply filter_In; auto).
  destruct (filter is_reconnect (timers (browser a))) as [|t0 [|t1 rest]];
    cbn in *; try tauto.
  destruct Hin' as [<-|[]]. tauto.
Qed.

Lemma reconnect_inv_fire (id : positive) (a : App) :
  reconnect_inv a -> reconnect_inv (fire id a).
Proof.
  intros Hinv. unfold fire.
  destruct (find (is_timer id) (timers (browser a))) as [t|] eqn:Hfind; [|exact Hinv].
  destruct (N.leb (due t) (clock (browser a))); [|exact Hinv].
  apply find_some in Hfind. destruct Hfind as [Hin Hid].
  set (a1 := on_browser _ a).
  assert (Hrec : reconnectTimers a1
                 = filter (fun t => negb (is_timer id t)) (reconnectTimers a)).
  { unfold a1, reconnectTimers; cbn. apply rearm_reconnect.
    intros t' Hin' Hr'. now apply (tracked_periods a Hinv). }
  assert (Hinv1 : reconnect_inv a1).
  { unfold reconnect_inv. rewrite Hrec. now apply tracked_filter. }
  destruct (callback t) eqn:Hcb; cbn.
  - apply reconnect_inv_connect.
    change (tracked (reconnectTimers a1) None). rewrite Hrec.
    assert (Hr : is_reconnect t = true) by (unfold is_reconnect; now rewrite Hcb).
    destruct (tracked_periods a Hinv t Hin Hr) as [_ Href].
    unfold reconnect_inv in Hinv. rewrite Href in Hinv.
    destruct (reconnectTimers a) as [|t0 [|t1 rest]]; cbn in *; try tauto.
    destruct Hinv as [Heq _]. inversion Heq as [Htid].
    unfold is_timer in *. rewrite <- Htid, Hid. exact I.
  - exact Hinv1.
  - destruct (is_open _ _); [|exact Hinv1].
    destruct (wsRef (refs a)); exact Hinv1.
Qed.

Lemma reconnect_inv_mount (a : App) :
  reconnect_inv a -> reconnect_inv (mountEffect a).
Proof.
  intros H. apply reconnect_inv_connect in H. unfold mountEffect.
  destruct (connectWebSocket a) as [ws a1]. cbn [snd] in H.
  unfold reconnect_inv, reconnectTimers in *; cbn.
  rewrite filter_app; cbn. now rewrite app_nil_r.
Qed.

Lemma reconnect_inv_cleanup (a : App) :
  reconnect_inv a -> reconnect_inv (cleanup a).
Proof.
  intros H. unfold cleanup.
  destruct (pingInterval (effect a)) as [pid|]; [|exact H].
  assert (H1 : reconnect_inv (on_browser (clearTimer pid) a)).
  { unfold reconnect_inv. rewrite reconnectTimers_clearTimer.
    now apply tracked_filter. }
  set (a1 := on_browser (clearTimer pid) a) in *.
  assert (H2 : reconnect_inv
                 match reconnectTimeoutRef (refs a1) with
                 | Some id => on_browser (clearTimer id) a1
                 | None => a1
                 end).
  { destruct (reconnectTimeoutRef (refs a1)) as [id|]; [|exact H1].
    unfold reconnect_inv. rewrite reconnectTimers_clearTimer.
    now apply tracked_filter. }
  set (a2 := match reconnectTimeoutRef (refs a1) with
             | Some id => on_browser (clearTimer id) a1
             | None => a1
             end) in *.
  destruct (is_open (browser a2) (effectWs (effect a))); [|exact H2].
  destruct (effectWs (effect a)) as [sid|]; [|exact H2].
  unfold reconnect_inv, reconnectTimers, ws_close in *; cbn.
  destruct (nth_error (sockets (browser a2)) sid) as [[]|]; exact H2.
Qed.

Lemma reconnect_inv_message (st : option Status) (p : Payload) (a : App) :
  reconnect_inv a -> reconnect_inv (run_js (onmessage st p) a).
Proof.
  unfold reconnect_inv, reconnectTimers. rewrite onmessage_refs.
  destruct (onmessage_timers st p a) as [->|(t & Hcb & ->)]; [tauto|].
  rewrite filter_app. cbn [filter].
  replace (is_reconnect t) with false by (unfold is_reconnect; now rewrite Hcb).
  now rewrite app_nil_r.
Qed.

Lemma reconnect_inv_deliver (a : App) (e : Event) :
  reconnect_inv a -> reconnect_inv (deliver a e).
Proof.
  intros H. destruct e; cbn [deliver].
  - now apply reconnect_inv_mount.
  - now apply reconnect_inv_cleanup.
  - destruct (exists_socket ws a); [|exact H]. apply reconnect_inv_onopen. exact H.
  - destruct (exists_socket ws a); [|exact H]. now apply reconnect_inv_message.
  - destruct (exists_socket ws a); [|exact H]. apply reconnect_inv_onclose. exact H.
  - destruct (exists_socket ws a); exact H.
  - exact H.
  - now apply reconnect_inv_fire.
  - exact H.
  - exact H.
  - unfold handleSendNow, handleSend. js_cases; exact H.
  - destruct (handleSendSettled_fields mode response a) as (_ & Hr & Hb & _).
    unfold reconnect_inv, reconnectTimers. now rewrite Hr, Hb.
Qed.

Lemma reconnect_inv_run (trace : list Event) (a : App) :
  reconnect_inv a -> reconnect_inv (run a trace).
Proof.
  revert a. induction trace as [|e trace IH]; intros a H; [exact H|].
  rewrite run_cons. apply IH. now apply reconnect_inv_deliver.
Qed.


(** C7: in every reachable state at most one reconnect timer is
    pending.  A close while one is pending, or while the ref is set,
    schedules nothing; a close with the ref empty schedules exactly one
    and records its handle; [onerror] touches neither timers nor
    sockets; after five closes in a row one reconnect timer is
    pending. *)
Theorem single_reconnect_in_flight :
  (forall trace : list Event,
      List.length (reconnectTimers (run initialApp trace)) <= 1)
  /\ (forall trace : list Event,
         reconnectTimers (run initialApp trace) <> [] ->
         timers (browser (onclose (run initialApp trace)))
         = timers (browser (run initialApp trace)))
  /\ (forall a : App,
         reconnectTimeoutRef (refs a) <> None ->
         timers (browser (onclose a)) = timers (browser a))
  /\ (forall a : App,
         reconnectTimeoutRef (refs a) = None ->
         timers (browser (onclose a))
         = (timers (browser a) ++ [reconnectTimer a])%list
         /\ reconnectTimeoutRef (refs (onclose a)) = Some (tid (reconnectTimer a)))
  /\ (forall a : App, browser (onerror a) = browser a)
  /\ reconnectTimers (run initialApp (Mount :: repeat (WsClose 0) 5))
     = [mkTimer 2 3000 None CbReconnect].
Proof.
  assert (Hset : forall a : App,
             reconnectTimeoutRef (refs a) <> None ->
             timers (browser (onclose a)) = timers (browser a)).
  { intros a H. unfold onclose; cbn.
    destruct (reconnectTimeoutRef (refs a)); [reflexivity|congruence]. }
  split; [|split; [|split; [|split; [|split]]]].
  - intros trace.
    apply tracked_length
      with (ref := reconnectTimeoutRef (refs (run initialApp trace))).
    apply (reconnect_inv_run trace initialApp). exact I.
  - intros trace Hne. apply Hset.
    pose proof (reconnect_inv_run trace initialApp I) as Hinv.
    unfold reconnect_inv in Hinv.
    destruct (reconnectTimers (run initialApp trace)) as [|t [|t' rest]];
      cbn in Hinv; [congruence| |tauto].
    destruct Hinv as [-> _]. discriminate.
  - exact Hset.
  - intros a H. unfold onclose; cbn. rewrite H. split; reflexivity.
  - reflexivity.
  - reflexivity.
Qed.

Lemma single_reconnect_in_flight_witness :
  (reconnectTimers (run initialApp [Mount; WsOpen 0; WsClose 0]) <> []
   /\ timers (browser (onclose (run initialApp [Mount; WsOpen 0; WsClose 0])))
      = timers (browser (run initialApp [Mount; WsOpen 0; WsClose 0])))
  /\ (reconnectTimeoutRef (refs closedOnce) <> None
      /\ timers (browser (onclose closedOnce)) = timers (browser closedOnce))
  /\ (reconnectTimeoutRef (refs connected) = None
      /\ timers (browser (onclose connected))
         = (timers (browser connected) ++ [reconnectTimer connected])%list).
Proof.
  destruct single_reconnect_in_flight as (_ & Hpending & Hset & Hempty & _).
  split; [|split]; split.
  - cbn. discriminate.
  - apply (Hpending [Mount; WsOpen 0; WsClose 0]). cbn. discriminate.
  - cbn. discriminate.
  - apply (Hset closedOnce). cbn. discriminate.
  - reflexivity.
  - apply (Hempty connected). reflexivity.
Defined.

(** ** Hold timers *)






(** ** Shutdown *)

(** C6: the cleanup clears the ping interval and closes the socket,
    but the close event then runs [onclose], which finds the ref empty
    and schedules a reconnect; three seconds later a new socket is
    being opened.  A pending reset timer survives the cleanup, and
    after a reconnect the cleanup leaves the live socket open. *)
Theorem shutdown_is_followed_by_reconnect :
  (sockets (browser (run initialApp shutdown)) = [CLOSING]
   /\ timers (browser (run initialApp shutdown)) = [])
  /\ timers (browser (run initialApp (shutdown ++ [WsClose 0])))
     = [mkTimer 2 3000 None CbReconnect]
  /\ (sockets (browser (run initialApp afterShutdown)) = [CLOSED; CONNECTING]
      /\ isConnectingRef (refs (run initialApp afterShutdown)) = true)
  /\ timers (browser (run initialApp
                        [Mount; WsOpen 0; WsMessage 0 completeFrame; Unmount]))
     = [mkTimer 2 2000 None CbReset]
  /\ sockets (browser (run initialApp reconnectedThenShutdown)) = [CLOSED; OPEN].
Proof. cbn. repeat split. Qed.

(** ** Keywords in the input *)

Lemma chars_rev_append (s acc : string) :
  chars (rev_append s acc) = (rev (chars s) ++ chars acc)%list.
Proof.
  revert acc. induction s as [|c s IH]; intros acc; cbn; [reflexivity|].
  rewrite IH. cbn. now rewrite <- app_assoc.
Qed.

Lemma chars_reverse (s : string) : chars (reverse s) = rev (chars s).
Proof. unfold reverse. rewrite chars_rev_append. apply app_nil_r. Qed.

Lemma trimStart_keeps (c : ascii) (s : string) :
  is_ws c = false -> In c (chars s) -> In c (chars (trimStart s)).
Proof.
  intros Hc. induction s as [|c' s IH]; cbn; [tauto|].
  destruct (is_ws c') eqn:Hw; [|cbn; tauto].
  intros [->|H]; [congruence|auto].
Qed.

Lemma trim_keeps (c : ascii) (s : string) :
  is_ws c = false -> In c (chars s) -> In c (chars (trim s)).
Proof.
  intros Hc H. unfold trim, trimEnd.
  rewrite chars_reverse. apply in_rev. rewrite rev_involutive.
  apply trimStart_keeps; [exact Hc|].
  rewrite chars_reverse. apply in_rev. rewrite rev_involutive.
  now apply trimStart_keeps.
Qed.

Lemma startsWith_head (c : ascii) (pat s : string) :
  startsWith (String c pat) s = true -> exists s', s = String c s'.
Proof.
  destruct s as [|c' s]; cbn; [discriminate|].
  intros H. apply andb_true_iff in H. destruct H as [H _].
  apply Ascii.eqb_eq in H. subst. now exists s.
Qed.

Lemma includes_head (c : ascii) (pat s : string) :
  includes s (String c pat) = true -> In c (chars s).
Proof.
  induction s as [|c' s IH]; cbn [includes]; intros H.
  - cbn in H. discriminate.
  - apply orb_true_iff in H. destruct H as [H|H].
    + apply startsWith_head in H. destruct H as [s' H]. inversion H. now left.
    + right. auto.
Qed.

Lemma chars_toLowerCase (s : string) :
  chars (toLowerCase s) = map lower_char (chars s).
Proof. induction s as [|c s IH]; cbn; [reflexivity|now rewrite IH]. Qed.

Lemma lower_char_ws (c : ascii) : is_ws c = true -> is_ws (lower_char c) = true.
Proof.
  destruct c as [[] [] [] [] [] [] [] []]; vm_compute; intros H;
    first [reflexivity | discriminate H].
Qed.

(** A keyword that starts with a letter occurs only in input that is
    not blank. *)
Lemma includes_not_blank (input pat : string) (c : ascii) :
  is_ws c = false ->
  includes (toLowerCase input) (String c pat) = true ->
  trim input <> "".
Proof.
  intros Hc H. apply includes_head in H.
  rewrite chars_toLowerCase in H. apply in_map_iff in H.
  destruct H as (c0 & Hl & Hin).
  assert (Hc0 : is_ws c0 = false).
  { destruct (is_ws c0) eqn:Hw; [|reflexivity].
    apply lower_char_ws in Hw. congruence. }
  pose proof (trim_keeps c0 input Hc0 Hin) as Ht.
  intros E. rewrite E in Ht. exact Ht.
Qed.


(** C10: whatever the mode, a submitted message whose lower-cased text
    contains "navigate", "go to" or "open" turns [isAutomating] on and
    sets the status to the headline "Working..." with the detail
    "Preparing to assist you" and nothing else, before any request is
    made. *)
Theorem keywords_start_optimistically :
  forall (input mode : string) (a : App),
    mentionsNavigation input = true ->
    isAutomating (store (handleSend input false mode a)) = true
    /\ automationStatus (store (handleSend input false mode a))
       = Some (mkStatus (JStr "Working...") (JStr "Preparing to assist you")
                        JUndefined JUndefined JUndefined).
Proof.
  intros input mode a H.
  assert (Ht : trim input <> "").
  { unfold mentionsNavigation in H.
    apply orb_true_iff in H. destruct H as [H|H];
      [apply orb_true_iff in H; destruct H as [H|H]|];
      eapply includes_not_blank; try exact H; reflexivity. }
  assert (Hc : optimisticCondition mode input = true).
  { unfold optimisticCondition. unfold mentionsNavigation in H.
    rewrite <- !orb_assoc in *. rewrite H. apply orb_true_r. }
  apply String.eqb_neq in Ht.
  unfold handleSend. rewrite Ht. cbn.
  unfold optimisticStart. rewrite Hc. split; reflexivity.
Qed.

Lemma keywords_start_optimistically_witness :
  mentionsNavigation "Please OPEN the settings page" = true
  /\ isAutomating
       (store (handleSend "Please OPEN the settings page" false "research"
                 connected)) = true
  /\ automationStatus
       (store (handleSend "Please OPEN the settings page" false "research"
                 connected))
     = Some (mkStatus (JStr "Working...") (JStr "Preparing to assist you")
                      JUndefined JUndefined JUndefined).
Proof.
  split; [reflexivity|].
  apply (keywords_start_optimistically
           "Please OPEN the settings page" "research" connected).
  reflexivity.
Defined.

(** * Further properties *)

(** ** Connecting *)

Lemma connectWebSocket_again (a : App) :
  connectWebSocket (snd (connectWebSocket a))
  = (wsRef (refs a), snd (connectWebSocket a)).
Proof.
  unfold connectWebSocket.
  destruct (isConnectingRef (refs a) || is_open (browser a) (wsRef (refs a)))
    eqn:Hg; cbn.
  - now rewrite Hg.
  - reflexivity.
Qed.

(** X1: calling [connectWebSocket] again right after a call changes
    nothing and returns [wsRef.current]; a call creates at most one
    socket, and none while a connection attempt is in flight or the
    current socket is open. *)
Theorem connect_is_idempotent :
  forall a : App,
    snd (connectWebSocket (snd (connectWebSocket a))) = snd (connectWebSocket a)
    /\ fst (connectWebSocket (snd (connectWebSocket a))) = wsRef (refs a)
    /\ List.length (sockets (browser (snd (connectWebSocket a))))
       <= S (List.length (sockets (browser a)))
    /\ (isConnectingRef (refs a) = true -> connectWebSocket a = (wsRef (refs a), a))
    /\ (is_open (browser a) (wsRef (refs a)) = true ->
        connectWebSocket a = (wsRef (refs a), a)).
Proof.
  intros a. split; [|split; [|split; [|split]]].
  - now rewrite connectWebSocket_again.
  - now rewrite connectWebSocket_again.
  - unfold connectWebSocket. js_cases; cbn; rewrite ?length_app; cbn; lia.
  - intros H. unfold connectWebSocket. now rewrite H.
  - intros H. unfold connectWebSocket. rewrite H, orb_true_r. reflexivity.
Qed.

Lemma connect_is_idempotent_witness :
  connectWebSocket (run initialApp [Mount]) = (None, run initialApp [Mount])
  /\ connectWebSocket connected = (Some 0, connected).
Proof.
  split.
  - apply (proj1 (proj2 (proj2 (proj2
             (connect_is_idempotent (run initialApp [Mount])))))).
    reflexivity.
  - apply (proj2 (proj2 (proj2 (proj2 (connect_is_idempotent connected))))).
    reflexivity.
Defined.

Lemma nth_error_set_nth {A} (n : nat) (x : A) (l : list A) :
  nth_error l n <> None -> nth_error (set_nth n x l) n = Some x.
Proof.
  revert n. induction l as [|y l IH]; intros [|n]; cbn; try congruence.
  apply IH.
Qed.

Lemma length_set_nth {A} (n : nat) (x : A) (l : list A) :
  List.length (set_nth n x l) = List.length l.
Proof.
  revert n. induction l as [|y l IH]; intros [|n]; cbn; try reflexivity.
  now rewrite IH.
Qed.

Lemma exists_socket_nth (ws : nat) (a : App) :
  exists_socket ws a = true -> nth_error (sockets (browser a)) ws <> None.
Proof.
  unfold exists_socket. destruct (nth_error _ _); [discriminate|discriminate].
Qed.

(** X2: in every reachable state, the open event of a socket leaves no
    reconnect timer pending: the refs are [wsRef = ws], no reconnect
    handle, not connecting, and the socket reads as open. *)
Theorem open_cancels_pending_reconnect :
  forall (trace : list Event) (ws : nat),
    exists_socket ws (run initialApp trace) = true ->
    reconnectTimers (deliver (run initialApp trace) (WsOpen ws)) = []
    /\ refs (deliver (run initialApp trace) (WsOpen ws)) = mkRefs (Some ws) None false
    /\ is_open (browser (deliver (run initialApp trace) (WsOpen ws))) (Some ws) = true.
Proof.
  intros trace ws Hs.
  pose proof (reconnect_inv_run trace initialApp I) as Hinv.
  set (a := run initialApp trace) in *.
  cbn [deliver]. rewrite Hs.
  pose proof (nth_error_set_nth ws OPEN (sockets (browser a))
                (exists_socket_nth ws a Hs)) as Hopen.
  unfold reconnect_inv, reconnectTimers in Hinv.
  unfold onopen, reconnectTimers, is_open; cbn.
  destruct (reconnectTimeoutRef (refs a)) as [id|] eqn:Href; cbn.
  - rewrite filter_comm, Hopen.
    destruct (filter is_reconnect (timers (browser a))) as [|t [|t' rest]];
      cbn in *; [(repeat split; reflexivity)| |tauto].
    destruct Hinv as [Heq _]. inversion Heq; subst.
    unfold is_timer. rewrite Pos.eqb_refl. cbn. (repeat split; reflexivity).
  - rewrite Hopen. unfold set_isConnectingRef, set_wsRef; cbn. rewrite Href.
    destruct (filter is_reconnect (timers (browser a))) as [|t [|t' rest]];
      cbn in *; [(repeat split; reflexivity)| |tauto].
    destruct Hinv as [Heq _]. discriminate.
Qed.

Lemma open_cancels_pending_reconnect_witness :
  exists_socket 0 (run initialApp [Mount; WsClose 0]) = true
  /\ reconnectTimers (run initialApp [Mount; WsClose 0])
     = [mkTimer 2 3000 None CbReconnect]
  /\ reconnectTimers (deliver (run initialApp [Mount; WsClose 0]) (WsOpen 0)) = [].
Proof.
  split; [reflexivity|split; [reflexivity|]].
  apply (open_cancels_pending_reconnect [Mount; WsClose 0] 0). reflexivity.
Defined.

(** ** Timer handles *)

Lemma onmessage_browser (st : option Status) (p : Payload) (a : App) :
  browser (run_js (onmessage st p) a) = browser a
  \/ exists d, browser (run_js (onmessage st p) a)
               = snd (schedule CbReset d false (browser a)).
Proof.
  destruct p as [|[]]; try (left; reflexivity); js_run; js_cases;
    try (left; reflexivity); right; eexists; reflexivity.
Qed.

Lemma fresh_schedule (cb : Callback) (d : N) (r : bool) (b : Browser) :
  timers_fresh b -> timers_fresh (snd (schedule cb d r b)).
Proof.
  unfold timers_fresh; cbn. intros H. apply Forall_app. split.
  - eapply Forall_impl; [|exact H]. cbn. intros t Ht. lia.
  - constructor; [cbn; lia|constructor].
Qed.

Lemma fresh_clearTimer (id : positive) (b : Browser) :
  timers_fresh b -> timers_fresh (clearTimer id b).
Proof.
  unfold timers_fresh; cbn. rewrite !Forall_forall.
  intros H t Ht. apply filter_In in Ht. apply H, Ht.
Qed.

Lemma fresh_rearm (id : positive) (b : Browser) :
  timers_fresh b -> timers_fresh (set_timers (flat_map (rearm id) (timers b)) b).
Proof.
  unfold timers_fresh; cbn. rewrite !Forall_forall.
  intros H t Ht. apply in_flat_map in Ht. destruct Ht as (t0 & Hin & Ht).
  specialize (H t0 Hin). unfold rearm in Ht.
  destruct (is_timer id t0); [destruct (period t0)|]; cbn in Ht;
    try contradiction; destruct Ht as [<-|[]]; exact H.
Qed.

Lemma fresh_same (b b' : Browser) :
  timers b' = timers b -> nextTimer b' = nextTimer b ->
  timers_fresh b -> timers_fresh b'.
Proof. unfold timers_fresh. now intros -> ->. Qed.

Lemma connectWebSocket_browser (a : App) :
  timers (browser (snd (connectWebSocket a))) = timers (browser a)
  /\ nextTimer (browser (snd (connectWebSocket a))) = nextTimer (browser a)
  /\ clock (browser (snd (connectWebSocket a))) = clock (browser a).
Proof. unfold connectWebSocket. js_cases; repeat split. Qed.

Lemma fresh_callback (cb : Callback) (a : App) :
  timers_fresh (browser a) -> timers_fresh (browser (run_callback cb a)).
Proof.
  intros H. destruct cb; cbn.
  - destruct (connectWebSocket_browser (on_refs (set_reconnectTimeoutRef None) a))
      as (Ht & Hn & _).
    eapply fresh_same; [exact Ht|exact Hn|exact H].
  - exact H.
  - destruct (is_open _ _); [|exact H]. destruct (wsRef (refs a)); exact H.
Qed.

Lemma fresh_deliver (a : App) (e : Event) :
  timers_fresh (browser a) -> timers_fresh (browser (deliver a e)).
Proof.
  intros H. destruct e; cbn [deliver].
  - unfold mountEffect.
    destruct (connectWebSocket_browser a) as (Ht & Hn & _).
    destruct (connectWebSocket a) as [ws a1]. cbn [snd] in *.
    assert (H1 : timers_fresh (browser a1)) by (eapply fresh_same; eauto).
    apply (fresh_schedule CbPing 30000 true) in H1. exact H1.
  - unfold cleanup. destruct (pingInterval (effect a)) as [pid|]; [|exact H].
    cbn. apply (fresh_clearTimer pid) in H.
    destruct (reconnectTimeoutRef (refs a)) as [id|].
    + apply (fresh_clearTimer id) in H. cbn.
      destruct (is_open _ _); [|exact H].
      destruct (effectWs (effect a)) as [sid|]; [|exact H].
      cbn. unfold ws_close; cbn. destruct (nth_error _ sid) as [[]|]; exact H.
    + cbn. destruct (is_open _ _); [|exact H].
      destruct (effectWs (effect a)) as [sid|]; [|exact H].
      cbn. unfold ws_close; cbn. destruct (nth_error _ sid) as [[]|]; exact H.
  - destruct (exists_socket ws a); [|exact H].
    unfold onopen; cbn. destruct (reconnectTimeoutRef (refs a)) as [id|]; cbn.
    + apply (fresh_clearTimer id
               (set_readyState ws OPEN (browser a))). exact H.
    + exact H.
  - destruct (exists_socket ws a); [|exact H].
    destruct (onmessage_browser (seenStatus a) p a) as [->|[d ->]];
      [exact H|now apply fresh_schedule].
  - destruct (exists_socket ws a); [|exact H].
    unfold onclose; cbn. destruct (reconnectTimeoutRef (refs a)); cbn; [exact H|].
    apply (fresh_schedule CbReconnect 3000 false
             (set_readyState ws CLOSED (browser a))). exact H.
  - destruct (exists_socket ws a); exact H.
  - exact H.
  - unfold fire. destruct (find _ _) as [t|]; [|exact H].
    destruct (N.leb _ _); [|exact H].
    apply fresh_callback. cbn. now apply fresh_rearm.
  - exact H.
  - exact H.
  - unfold handleSendNow, handleSend. js_cases; exact H.
  - destruct (handleSendSettled_fields mode response a) as (_ & _ & -> & _).
    exact H.
Qed.

(** In every reachable state the next handle is new. *)
Lemma fresh_run (trace : list Event) (a : App) :
  timers_fresh (browser a) -> timers_fresh (browser (run a trace)).
Proof.
  revert a. induction trace as [|e trace IH]; intros a H; [exact H|].
  rewrite run_cons. apply IH. now apply fresh_deliver.
Qed.

Lemma fresh_initial : timers_fresh (browser initialApp).
Proof. constructor. Qed.

Lemma find_fresh (ts : list Timer) (t : Timer) :
  Forall (fun t' => (tid t' < tid t)%positive) ts ->
  find (is_timer (tid t)) (ts ++ [t]) = Some t.
Proof.
  induction 1 as [|t' ts Ht' _ IH]; cbn.
  - unfold is_timer. now rewrite Pos.eqb_refl.
  - unfold is_timer at 1.
    destruct (Pos.eqb_spec (tid t') (tid t)) as [E|_]; [lia|exact IH].
Qed.

Lemma rearm_fresh (ts : list Timer) (t : Timer) :
  Forall (fun t' => (tid t' < tid t)%positive) ts ->
  period t = None ->
  flat_map (rearm (tid t)) (ts ++ [t]) = ts.
Proof.
  intros H Hp. rewrite flat_map_app. cbn [flat_map].
  assert (rearm (tid t) t = []) as ->
      by (unfold rearm, is_timer; now rewrite Pos.eqb_refl, Hp).
  rewrite !app_nil_r.
  induction H as [|t' ts Ht' _ IH]; cbn [flat_map]; [reflexivity|].
  rewrite IH. unfold rearm, is_timer.
  destruct (Pos.eqb_spec (tid t') (tid t)) as [E|_]; [lia|reflexivity].
Qed.

(** ** The reconnect cycle *)

Lemma closedFor_eq (ws : nat) (ms : N) (a : App) :
  exists_socket ws a = true ->
  reconnectTimeoutRef (refs a) = None ->
  closedFor ws ms a
  = mkApp (store a) (local a)
          (mkRefs None (Some (nextTimer (browser a))) false)
          (effect a)
          (mkBrowser (set_nth ws CLOSED (sockets (browser a)))
                     (timers (browser a) ++ [reconnectTimer a])
                     (Pos.succ (nextTimer (browser a)))
                     (clock (browser a) + ms)
                     (outbox (browser a)))
          (seenStatus a).
Proof.
  intros Hs Href. unfold closedFor, run; cbn [fold_left deliver].
  rewrite Hs. unfold onclose; cbn. rewrite Href. reflexivity.
Qed.

(** X3: in every reachable state with no reconnect handle, a close
    followed by less than 3000 ms leaves the reconnect timer unable to
    run; once 3000 ms have passed its run opens exactly one new socket,
    sets the connecting flag and leaves the other timers as they
    were. *)
Theorem close_reconnects_after_three_seconds :
  forall (trace : list Event) (ws : nat) (ms : N),
    exists_socket ws (run initialApp trace) = true ->
    reconnectTimeoutRef (refs (run initialApp trace)) = None ->
    ((ms < 3000)%N ->
     fire (nextTimer (browser (run initialApp trace)))
          (closedFor ws ms (run initialApp trace))
     = closedFor ws ms (run initialApp trace))
    /\ ((3000 <= ms)%N ->
        sockets (browser (fire (nextTimer (browser (run initialApp trace)))
                               (closedFor ws ms (run initialApp trace))))
        = (set_nth ws CLOSED (sockets (browser (run initialApp trace)))
           ++ [CONNECTING])%list
        /\ refs (fire (nextTimer (browser (run initialApp trace)))
                      (closedFor ws ms (run initialApp trace)))
           = mkRefs None None true
        /\ timers (browser (fire (nextTimer (browser (run initialApp trace)))
                                 (closedFor ws ms (run initialApp trace))))
           = timers (browser (run initialApp trace))).
Proof.
  intros trace ws ms Hs Href.
  pose proof (fresh_run trace initialApp fresh_initial) as Hfresh.
  set (a := run initialApp trace) in *.
  rewrite (closedFor_eq ws ms a Hs Href).
  assert (Hfind : find (is_timer (nextTimer (browser a)))
                    (timers (browser a) ++ [reconnectTimer a])
                  = Some (reconnectTimer a))
    by (apply (find_fresh (timers (browser a)) (reconnectTimer a)); exact Hfresh).
  unfold fire; cbn [browser timers clock]. rewrite Hfind. cbn [due reconnectTimer].
  split.
  - intros Hlt.
    assert (E : (clock (browser a) + 3000 <=? clock (browser a) + ms)%N = false)
      by (apply N.leb_gt; lia).
    now rewrite E.
  - intros Hle.
    assert (E : (clock (browser a) + 3000 <=? clock (browser a) + ms)%N = true)
      by (apply N.leb_le; lia).
    rewrite E.
    pose proof (rearm_fresh (timers (browser a)) (reconnectTimer a) Hfresh eq_refl)
      as Hre.
    unfold reconnectTimer in Hre |- *. cbn in Hre |- *. rewrite Hre.
    unfold connectWebSocket; cbn. repeat split.
Qed.

Lemma close_reconnects_after_three_seconds_witness :
  fire 2 (closedFor 0 2999 connected) = closedFor 0 2999 connected
  /\ sockets (browser (fire 2 (closedFor 0 3000 connected)))
     = [CLOSED; CONNECTING].
Proof.
  split.
  - apply (proj1 (close_reconnects_after_three_seconds
                    [Mount; WsOpen 0] 0 2999 eq_refl eq_refl)).
    reflexivity.
  - apply (proj2 (close_reconnects_after_three_seconds
                    [Mount; WsOpen 0] 0 3000 eq_refl eq_refl)).
    cbn. discriminate.
Defined.

(** ** A task from start to reset *)









(** ** What the transport leaves alone *)

Lemma connectWebSocket_store (a : App) :
  store (snd (connectWebSocket a)) = store a
  /\ local (snd (connectWebSocket a)) = local a.
Proof. unfold connectWebSocket. js_cases; split; reflexivity. Qed.

Lemma transport_deliver (a : App) (e : Event) :
  is_transport e = true ->
  store (deliver a e) = store a /\ local (deliver a e) = local a.
Proof.
  destruct e; cbn [is_transport deliver]; try discriminate; intros _.
  - unfold mountEffect. destruct (connectWebSocket_store a) as [Hs Hl].
    destruct (connectWebSocket a) as [ws a1]. cbn in *. now split.
  - unfold cleanup. destruct (pingInterval (effect a)); [|now split]. cbn.
    destruct (reconnectTimeoutRef (refs a)); cbn;
      destruct (is_open _ _); try (now split);
      destruct (effectWs (effect a)); now split.
  - destruct (exists_socket ws a); [|now split].
    unfold onopen; cbn. destruct (reconnectTimeoutRef (refs a)); now split.
  - destruct (exists_socket ws a); [|now split].
    unfold onclose; cbn. destruct (reconnectTimeoutRef (refs a)); now split.
  - destruct (exists_socket ws a); now split.
  - now split.
Qed.

(** X6: no sequence of transport events (mount, unmount, open, close,
    error, time passing) changes the store or the local state: a
    disconnect never rolls a task back. *)
Theorem transport_never_touches_the_session :
  forall (a : App) (trace : list Event),
    forallb is_transport trace = true ->
    store (run a trace) = store a /\ local (run a trace) = local a.
Proof.
  intros a trace. revert a.
  induction trace as [|e trace IH]; intros a H; [now split|].
  cbn [forallb] in H. apply andb_true_iff in H. destruct H as [He Ht].
  rewrite run_cons. destruct (IH (deliver a e) Ht) as [-> ->].
  now apply transport_deliver.
Qed.

Lemma transport_never_touches_the_session_witness :
  store (run progressing [WsError 0; WsClose 0; Elapse 3000; Unmount; Mount; WsOpen 1])
  = store progressing.
Proof.
  apply (transport_never_touches_the_session progressing
           [WsError 0; WsClose 0; Elapse 3000; Unmount; Mount; WsOpen 1]).
  reflexivity.
Defined.

(** ** Keep-alive *)

Lemma is_ping_mono (a a' : App) (m : nat * string) :
  List.length (sockets (browser a)) <= List.length (sockets (browser a')) ->
  is_ping a m -> is_ping a' m.
Proof. unfold is_ping. intros H [H1 H2]. split; [exact H1|lia]. Qed.

Lemma pings_only_same (a a' : App) :
  outbox (browser a') = outbox (browser a) ->
  List.length (sockets (browser a)) <= List.length (sockets (browser a')) ->
  pings_only a -> pings_only a'.
Proof.
  unfold pings_only. intros -> Hl H.
  eapply Forall_impl; [|exact H]. intros m. now apply is_ping_mono.
Qed.

Lemma connectWebSocket_outbox (a : App) :
  outbox (browser (snd (connectWebSocket a))) = outbox (browser a)
  /\ List.length (sockets (browser a))
     <= List.length (sockets (browser (snd (connectWebSocket a)))).
Proof.
  unfold connectWebSocket. js_cases; cbn; rewrite ?length_app; split;
    try reflexivity; lia.
Qed.

Lemma is_open_length (b : Browser) (ws : nat) :
  is_open b (Some ws) = true -> ws < List.length (sockets b).
Proof.
  unfold is_open. destruct (nth_error (sockets b) ws) eqn:E; [|discriminate].
  intros _. apply nth_error_Some. congruence.
Qed.

Lemma pings_only_callback (cb : Callback) (a : App) :
  pings_only a -> pings_only (run_callback cb a).
Proof.
  intros H. destruct cb; cbn.
  - destruct (connectWebSocket_outbox (on_refs (set_reconnectTimeoutRef None) a))
      as [Ho Hl].
    eapply pings_only_same; [exact Ho|exact Hl|exact H].
  - exact H.
  - destruct (is_open (browser a) (wsRef (refs a))) eqn:Ho; [|exact H].
    destruct (wsRef (refs a)) as [ws|]; [|exact H].
    unfold pings_only; cbn. apply Forall_app. split; [exact H|].
    constructor; [|constructor]. split; [reflexivity|].
    cbn. now apply is_open_length.
Qed.

Lemma pings_only_deliver (a : App) (e : Event) :
  pings_only a -> pings_only (deliver a e).
Proof.
  intros H. destruct e; cbn [deliver].
  - unfold mountEffect. destruct (connectWebSocket_outbox a) as [Ho Hl].
    destruct (connectWebSocket a) as [ws a1]. cbn [snd] in *.
    eapply pings_only_same; [| |exact H]; cbn; [exact Ho|exact Hl].
  - unfold cleanup. destruct (pingInterval (effect a)) as [pid|]; [|exact H].
    eapply pings_only_same; [| |exact H]; cbn;
      destruct (reconnectTimeoutRef (refs a)); cbn;
      destruct (is_open _ _); try reflexivity;
      destruct (effectWs (effect a)) as [sid|]; try reflexivity;
      cbn; unfold ws_close; cbn;
      destruct (nth_error _ sid) as [[]|]; cbn;
      rewrite ?length_set_nth; reflexivity.
  - destruct (exists_socket ws a); [|exact H].
    eapply pings_only_same; [| |exact H]; unfold onopen; cbn;
      destruct (reconnectTimeoutRef (refs a)); cbn;
      rewrite ?length_set_nth; reflexivity.
  - destruct (exists_socket ws a); [|exact H].
    eapply pings_only_same; [| |exact H];
      destruct (onmessage_browser (seenStatus a) p a) as [->|[d ->]];
      reflexivity.
  - destruct (exists_socket ws a); [|exact H].
    eapply pings_only_same; [| |exact H]; unfold onclose; cbn;
      destruct (reconnectTimeoutRef (refs a)); cbn;
      rewrite ?length_set_nth; reflexivity.
  - destruct (exists_socket ws a); exact H.
  - exact H.
  - unfold fire. destruct (find _ _) as [t|]; [|exact H].
    destruct (N.leb _ _); [|exact H].
    apply pings_only_callback. exact H.
  - exact H.
  - exact H.
  - unfold handleSendNow, handleSend. js_cases; exact H.
  - destruct (handleSendSettled_fields mode response a) as (_ & _ & Hb & _).
    eapply pings_only_same; [| |exact H]; now rewrite Hb.
Qed.

(** X7: everything the client ever sends is the text "ping", to a
    socket that exists; the keep-alive callback sends nothing unless
    the socket in [wsRef] is open, and then exactly one ping to it. *)
Theorem only_pings_are_sent :
  (forall trace : list Event,
      Forall (is_ping (run initialApp trace))
             (outbox (browser (run initialApp trace))))
  /\ (forall a : App,
         is_open (browser a) (wsRef (refs a)) = false ->
         run_callback CbPing a = a)
  /\ (forall (a : App) (ws : nat),
         wsRef (refs a) = Some ws ->
         is_open (browser a) (Some ws) = true ->
         outbox (browser (run_callback CbPing a))
         = (outbox (browser a) ++ [(ws, "ping")])%list).
Proof.
  split; [|split].
  - intros trace. revert trace.
    assert (G : forall trace a, pings_only a -> pings_only (run a trace)).
    { induction trace as [|e trace IH]; intros a H; [exact H|].
      rewrite run_cons. apply IH. now apply pings_only_deliver. }
    intros trace. apply (G trace initialApp). constructor.
  - intros a H. cbn. now rewrite H.
  - intros a ws Hw Ho. cbn. rewrite Hw, Ho. reflexivity.
Qed.

Lemma only_pings_are_sent_witness :
  run_callback CbPing closedOnce = closedOnce
  /\ outbox (browser (run_callback CbPing connected)) = [(0, "ping")].
Proof.
  destruct only_pings_are_sent as (_ & Hclosed & Hopen).
  split.
  - apply Hclosed. reflexivity.
  - apply (Hopen connected 0); reflexivity.
Defined.

(** ** Sending a message *)

Lemma trimStart_blank (s : string) : blank s = true -> trimStart s = "".
Proof.
  unfold blank. induction s as [|c s IH]; cbn; [reflexivity|].
  intros H. apply andb_true_iff in H. destruct H as [-> H]. auto.
Qed.

Lemma trim_blank (s : string) : trim s = "" <-> blank s = true.
Proof.
  split.
  - intros H. unfold blank. apply forallb_forall. intros c Hc.
    destruct (is_ws c) eqn:Hw; [reflexivity|].
    pose proof (trim_keeps c s Hw Hc) as Hin. rewrite H in Hin. destruct Hin.
  - intros H. unfold trim. now rewrite (trimStart_blank s H).
Qed.

Lemma sendDisabled_blank (a : App) :
  sendDisabled a = blank (input (local a)) || isLoading (local a).
Proof.
  unfold sendDisabled. f_equal.
  destruct (blank (input (local a))) eqn:Hb.
  - apply String.eqb_eq. now apply trim_blank.
  - apply String.eqb_neq. intros H. apply trim_blank in H. congruence.
Qed.

Lemma handleSendNow_acts (a : App) :
  sendDisabled a = false -> handleSendNow a <> a.
Proof.
  unfold sendDisabled, handleSendNow, handleSend. intros H. rewrite H.
  apply orb_false_iff in H. destruct H as [_ Hl].
  intros E. apply (f_equal (fun x => isLoading (local x))) in E.
  cbn in E. congruence.
Qed.

(** X8: the send button is disabled exactly when the input is blank or a
    request is in flight, and [handleSend] does nothing exactly then;
    otherwise it logs the user message, empties the input and sets
    [isLoading], which disables the button.  A key press sends only
    for Enter without Shift. *)
Theorem send_acts_exactly_when_enabled :
  forall a : App,
    sendDisabled a = blank (input (local a)) || isLoading (local a)
    /\ (sendDisabled a = true -> handleSendNow a = a)
    /\ (sendDisabled a = false ->
        messages (store (handleSendNow a))
        = (messages (store a)
           ++ [userMessage a (input (local a)) (currentMode (store a))])%list
        /\ input (local (handleSendNow a)) = ""
        /\ isLoading (local (handleSendNow a)) = true
        /\ sendDisabled (handleSendNow a) = true)
    /\ (forall (key : string) (shiftKey : bool),
          handleKeyPress key shiftKey a <> a ->
          key = "Enter" /\ shiftKey = false /\ sendDisabled a = false)
    /\ (sendDisabled a = false -> handleKeyPress "Enter" false a <> a).
Proof.
  intros a. split; [apply sendDisabled_blank|split; [|split; [|split]]].
  - unfold sendDisabled, handleSendNow, handleSend. now intros ->.
  - unfold sendDisabled, handleSendNow, handleSend. intros ->. cbn.
    repeat split.
    unfold optimisticStart. destruct (optimisticCondition _ _); reflexivity.
  - intros key shiftKey H. unfold handleKeyPress in H.
    destruct (String.eqb_spec key "Enter") as [->|_]; [|now contradiction H].
    destruct shiftKey; [now contradiction H|]. cbn in H.
    repeat split. destruct (sendDisabled a) eqn:Hd; [|reflexivity].
    contradiction H. unfold sendDisabled, handleSendNow, handleSend in *.
    now rewrite Hd.
  - apply handleSendNow_acts.
Qed.

Lemma send_acts_exactly_when_enabled_witness :
  handleSendNow (deliver connected (Typed "   ")) = deliver connected (Typed "   ")
  /\ input (local (handleSendNow (deliver connected (Typed "hello")))) = ""
  /\ handleKeyPress "Enter" false (deliver connected (Typed "hello"))
     <> deliver connected (Typed "hello").
Proof.
  split; [|split].
  - apply (proj1 (proj2 (send_acts_exactly_when_enabled
                           (deliver connected (Typed "   "))))).
    reflexivity.
  - apply (proj1 (proj2 (proj2 (send_acts_exactly_when_enabled
                                  (deliver connected (Typed "hello")))))).
    reflexivity.
  - apply (proj2 (proj2 (proj2 (proj2 (send_acts_exactly_when_enabled
                                         (deliver connected (Typed "hello"))))))).
    reflexivity.
Defined.

(** X9: for a submitted message the indicator is raised exactly when the
    mode is "automate" or the text mentions navigation; otherwise the
    session is left as it is. *)
Theorem indicator_raised_exactly_on_condition :
  forall (input mode : string) (a : App),
    blank input = false ->
    session (store (handleSend input false mode a))
    = if String.eqb mode "automate" || mentionsNavigation input
      then (true, Some placeholderStatus, automationSteps (store a))
      else session (store a).
Proof.
  intros input mode a Hb.
  assert (Ht : (trim input =? "") = false).
  { apply String.eqb_neq. intros H. apply trim_blank in H. congruence. }
  unfold handleSend. rewrite Ht. cbn.
  unfold optimisticStart, optimisticCondition, mentionsNavigation.
  rewrite <- !orb_assoc.
  destruct (_ || _); reflexivity.
Qed.

Lemma indicator_raised_exactly_on_condition_witness :
  session (store (handleSend "I reopened the jar" false "assist" connected))
  = (true, Some placeholderStatus, [])
  /\ session (store (handleSend "what is on this page?" false "research" connected))
     = session (store connected).
Proof.
  split.
  - apply (indicator_raised_exactly_on_condition
             "I reopened the jar" "assist" connected). reflexivity.
  - apply (indicator_raised_exactly_on_condition
             "what is on this page?" "research" connected). reflexivity.
Defined.

(** X10: whatever the outcome of the chat request, the continuation
    completes normally, appends exactly one assistant message, clears
    [isLoading] and leaves the session alone; a failed request, a
    [null] body, or a body whose truthy screenshot cannot be printed
    gives the apology with [error: true], any other body gives its
    [response] with the mode of the request. *)
Theorem settled_request_always_answers :
  forall (mode : string) (response : Completion JsVal) (a : App),
    fst (handleSendSettled mode response a) = Normal tt
    /\ isLoading (local (run_js (handleSendSettled mode response) a)) = false
    /\ input (local (run_js (handleSendSettled mode response) a)) = input (local a)
    /\ session (store (run_js (handleSendSettled mode response) a))
       = session (store a)
    /\ exists m : JsVal,
         messages (store (run_js (handleSendSettled mode response) a))
         = (messages (store a) ++ [m])%list
         /\ get_opt m "role" = JStr "assistant"
         /\ (answer_fails response = true ->
             get_opt m "error" = JBool true /\ get_opt m "content" = apology)
         /\ (forall data : JsVal,
                response = Normal data -> answer_fails response = false ->
                get_opt m "content" = get_opt data "response"
                /\ get_opt m "mode" = JStr mode
                /\ get_opt m "error" = JUndefined).
Proof.
  intros mode response a.
  unfold run_js, handleSendSettled, finally, try_catch, bind, lift, exec, ret, when,
    dataUrl, template, answer_fails, prints.
  destruct response as [data|e]; [destruct data|]; cbn;
    js_cases; cbn; repeat split; eexists;
    (split; [reflexivity|split; [reflexivity|split]]);
    try (intros H; discriminate H);
    try (intros _; split; reflexivity);
    try (intros data H H'; discriminate H');
    try (intros data H _; inversion H; subst; repeat split).
Qed.

Lemma settled_request_always_answers_witness :
  exists m : JsVal,
    messages (store (run_js (handleSendSettled "assist" (Throw NetworkError))
                       connected)) = [m]
    /\ get_opt m "error" = JBool true.
Proof.
  destruct (settled_request_always_answers "assist" (Throw NetworkError) connected)
    as (_ & _ & _ & _ & m & Hm & _ & Herr & _).
  exists m. split; [exact Hm|]. apply Herr. reflexivity.
Defined.

(** ** The message log *)

Lemma handleSendSettled_appends (mode : string) (response : Completion JsVal) (a : App) :
  exists m : JsVal,
    messages (store (run_js (handleSendSettled mode response) a))
    = (messages (store a) ++ [m])%list.
Proof.
  unfold run_js, handleSendSettled, finally, try_catch, bind, lift, exec, ret, when,
    dataUrl, template.
  destruct response as [data|e]; [destruct data|]; cbn;
    js_cases; cbn; eexists; reflexivity.
Qed.

Lemma handleSend_keeps_on (i m : string) (l : bool) (a : App) :
  isAutomating (store a) = true ->
  isAutomating (store (handleSend i l m a)) = true.
Proof.
  intros H. unfold handleSend. destruct (_ || _); [exact H|].
  cbn. unfold optimisticStart.
  destruct (optimisticCondition m i); [reflexivity|exact H].
Qed.

Lemma onmessage_messages (st : option Status) (p : Payload) (a : App) :
  messages (store (run_js (onmessage st p) a)) = messages (store a).
Proof. onmessage_cases p. Qed.

Lemma run_callback_messages (cb : Callback) (a : App) :
  messages (store (run_callback cb a)) = messages (store a).
Proof.
  destruct cb; cbn.
  - now destruct (connectWebSocket_store (on_refs (set_reconnectTimeoutRef None) a))
      as [-> _].
  - reflexivity.
  - destruct (is_open _ _); [destruct (wsRef _)|]; reflexivity.
Qed.

Lemma deliver_messages (a : App) (e : Event) :
  exists l : list JsVal,
    messages (store (deliver a e)) = (messages (store a) ++ l)%list
    /\ List.length l <= 1.
Proof.
  assert (Hsame : forall a' : App,
             messages (store a') = messages (store a) ->
             exists l, messages (store a') = (messages (store a) ++ l)%list
                       /\ List.length l <= 1).
  { intros a' ->. exists []. rewrite app_nil_r. split; [reflexivity|cbn; lia]. }
  destruct (is_transport e) eqn:Ht.
  - apply Hsame. now destruct (transport_deliver a e Ht) as [-> _].
  - destruct e; try discriminate Ht; cbn [deliver].
    + destruct (exists_socket ws a); [|now apply Hsame].
      apply Hsame, onmessage_messages.
    + apply Hsame. unfold fire. destruct (find _ _) as [t|]; [|reflexivity].
      destruct (N.leb _ _); [|reflexivity]. now rewrite run_callback_messages.
    + now apply Hsame.
    + now apply Hsame.
    + unfold handleSendNow, handleSend. destruct (_ || _); [now apply Hsame|].
      eexists. split; [|shelve]. cbn.
      unfold optimisticStart. destruct (optimisticCondition _ _); reflexivity.
      Unshelve. cbn. lia.
    + destruct (handleSendSettled_appends mode response a) as (m & Hm).
      exists [m]. split; [exact Hm|cbn; lia].
Qed.

(** X11: the message log only grows: after any events it is the old
    log followed by at most one new message per event. *)
Theorem messages_are_only_appended :
  forall (a : App) (trace : list Event),
    exists l : list JsVal,
      messages (store (run a trace)) = (messages (store a) ++ l)%list
      /\ List.length l <= List.length trace.
Proof.
  intros a trace. revert a.
  induction trace as [|e trace IH]; intros a.
  - exists []. rewrite app_nil_r. split; [reflexivity|cbn; lia].
  - rewrite run_cons. destruct (IH (deliver a e)) as (l2 & H2 & Hl2).
    destruct (deliver_messages a e) as (l1 & H1 & Hl1).
    exists (l1 ++ l2)%list. rewrite H2, H1, app_assoc, length_app.
    split; [reflexivity|cbn; lia].
Qed.

(** ** What turns the indicator on and off *)

Lemma fire_isAutomating (id : positive) (a : App) :
  isAutomating (store (fire id a)) = isAutomating (store a)
  \/ exists t, In t (timers (browser a)) /\ is_reset t = true
               /\ store (fire id a) = resetAutomationState (store a).
Proof.
  unfold fire. destruct (find _ _) as [t|] eqn:Hf; [|now left].
  destruct (N.leb _ _); [|now left].
  apply find_some in Hf. destruct Hf as [Hin _].
  destruct (callback t) eqn:Hcb; cbn.
  - left. now destruct (connectWebSocket_store
                          (on_refs (set_reconnectTimeoutRef None)
                             (on_browser
                                (fun b => set_timers (flat_map (rearm id) (timers b)) b)
                                a))) as [-> _].
  - right. exists t. unfold is_reset. rewrite Hcb. repeat split. exact Hin.
  - left. destruct (is_open _ _); [destruct (wsRef _)|]; reflexivity.
Qed.

Lemma deliver_isAutomating_cases :
  forall (a : App) (e : Event),
    (isAutomating (store a) = false ->
     isAutomating (store (deliver a e)) = true ->
     e = Send
     \/ exists (ws : nat) (p : Payload),
          e = WsMessage ws p
          /\ is_case (frameType p) "automation_start" = true)
    /\ (isAutomating (store a) = true ->
        isAutomating (store (deliver a e)) = false ->
        exists id : positive, e = Fire id).
Proof.
  intros a e.
  destruct (is_transport e) eqn:Ht.
  - destruct (transport_deliver a e Ht) as [-> _]. split; congruence.
  - destruct e; try discriminate Ht; cbn [deliver].
    + destruct (exists_socket ws a); [|split; congruence].
      destruct (is_case (frameType p) "automation_start") eqn:Hk.
      * split; [intros _ _; right; now exists ws, p|].
        destruct p as [|[]]; try discriminate Hk.
        cbn [frameType get_opt] in Hk.
        change (Json (JObj fields)) with (frame fields).
        rewrite onmessage_start by exact Hk.
        cbn. congruence.
      * rewrite (onmessage_isAutomating (seenStatus a) p a Hk). split; congruence.
    + split; [|intros _ _; now exists id].
      destruct (fire_isAutomating id a) as [->|(t & _ & _ & ->)];
        cbn; congruence.
    + cbn. split; congruence.
    + cbn. split; congruence.
    + split; [intros _ _; now left|].
      intros H. unfold handleSendNow.
      rewrite (handleSend_keeps_on _ _ _ a H). congruence.
    + destruct (handleSendSettled_fields mode response a) as (_ & _ & _ & Hs).
      unfold session in Hs. inversion Hs as [[H1 H2 H3]]. rewrite H1.
      split; congruence.
Qed.

(** X12: the indicator goes on only through [handleSend] or a start
    frame, and goes off only when a timer runs. *)
Theorem indicator_changes_have_one_cause_each :
  forall (a : App) (e : Event),
    (isAutomating (store a) = false ->
     isAutomating (store (deliver a e)) = true ->
     e = Send
     \/ exists (ws : nat) (p : Payload),
          e = WsMessage ws p
          /\ is_case (frameType p) "automation_start" = true)
    /\ (isAutomating (store a) = true ->
        isAutomating (store (deliver a e)) = false ->
        exists id : positive, e = Fire id).
Proof. exact deliver_isAutomating_cases. Qed.

Lemma indicator_changes_have_one_cause_each_witness :
  (Send = Send
   \/ exists (ws : nat) (p : Payload),
        Send = WsMessage ws p
        /\ is_case (frameType p) "automation_start" = true)
  /\ exists id : positive, Fire 2 = Fire id.
Proof.
  split.
  - apply (proj1 (indicator_changes_have_one_cause_each
                    (deliver connected (Typed "open the docs")) Send));
      reflexivity.
  - apply (proj2 (indicator_changes_have_one_cause_each
                    (run initialApp supersededTask) (Fire 2)));
      reflexivity.
Defined.

(** ** An unanswered start *)

Lemma forallb_filter {A} (f g : A -> bool) (l : list A) :
  forallb f l = true -> forallb f (filter g l) = true.
Proof.
  induction l as [|x l IH]; cbn; [reflexivity|].
  intros H. apply andb_true_iff in H. destruct H as [Hx Hl].
  destruct (g x); cbn; [rewrite Hx|]; auto.
Qed.

Lemma forallb_rearm (id : positive) (ts : list Timer) :
  forallb (fun t => negb (is_reset t)) ts = true ->
  forallb (fun t => negb (is_reset t)) (flat_map (rearm id) ts) = true.
Proof.
  induction ts as [|t ts IH]; cbn; [reflexivity|].
  intros H. apply andb_true_iff in H. destruct H as [Ht Hts].
  rewrite forallb_app, (IH Hts), andb_true_r.
  unfold rearm. destruct (is_timer id t); [destruct (period t)|]; cbn;
    rewrite ?andb_true_r; try reflexivity; exact Ht.
Qed.

Lemma onmessage_browser_quiet (st : option Status) (p : Payload) (a : App) :
  is_case (frameType p) "automation_complete"
  || is_case (frameType p) "automation_error" = false ->
  browser (run_js (onmessage st p) a) = browser a.
Proof.
  intros H. apply orb_false_iff in H. destruct H as [H1 H2].
  destruct p as [|[]]; try reflexivity.
  cbn [frameType get_opt] in *. js_run. rewrite H1, H2. js_cases; reflexivity.
Qed.

Lemma no_reset_deliver (a : App) (e : Event) :
  ends_task e = false ->
  no_reset_pending a = true -> no_reset_pending (deliver a e) = true.
Proof.
  unfold no_reset_pending. intros He H. destruct e; cbn [deliver].
  - unfold mountEffect. destruct (connectWebSocket_browser a) as (Ht & _).
    destruct (connectWebSocket a) as [ws a1]. cbn [snd] in *. cbn.
    rewrite forallb_app, Ht, H. reflexivity.
  - unfold cleanup. destruct (pingInterval (effect a)) as [pid|]; [|exact H].
    cbn. destruct (reconnectTimeoutRef (refs a)) as [id|]; cbn;
      destruct (is_open _ _); cbn; try destruct (effectWs (effect a)) as [sid|];
      cbn; unfold ws_close; cbn; try destruct (nth_error _ sid) as [[]|]; cbn;
      repeat apply forallb_filter; exact H.
  - destruct (exists_socket ws a); [|exact H].
    unfold onopen; cbn. destruct (reconnectTimeoutRef (refs a)); cbn;
      [now apply forallb_filter|exact H].
  - destruct (exists_socket ws a); [|exact H].
    cbn [ends_task] in He. now rewrite onmessage_browser_quiet.
  - destruct (exists_socket ws a); [|exact H].
    unfold onclose; cbn. destruct (reconnectTimeoutRef (refs a)); cbn; [exact H|].
    rewrite forallb_app, H. reflexivity.
  - destruct (exists_socket ws a); exact H.
  - exact H.
  - unfold fire. destruct (find _ _) as [t|]; [|exact H].
    destruct (N.leb _ _); [|exact H].
    apply (forallb_rearm id) in H.
    destruct (callback t); cbn.
    + now destruct (connectWebSocket_browser
                      (on_refs (set_reconnectTimeoutRef None)
                         (on_browser
                            (fun b => set_timers (flat_map (rearm id) (timers b)) b)
                            a))) as (-> & _).
    + exact H.
    + destruct (is_open _ _); [destruct (wsRef _)|]; exact H.
  - exact H.
  - exact H.
  - unfold handleSendNow, handleSend. js_cases; exact H.
  - destruct (handleSendSettled_fields mode response a) as (_ & _ & -> & _).
    exact H.
Qed.

Lemma stays_on_deliver (a : App) (e : Event) :
  no_reset_pending a = true ->
  isAutomating (store a) = true ->
  isAutomating (store (deliver a e)) = true.
Proof.
  intros Hn Ha.
  destruct (isAutomating (store (deliver a e))) eqn:E; [reflexivity|].
  destruct (proj2 (deliver_isAutomating_cases a e) Ha E) as [id ->].
  cbn [deliver] in E.
  destruct (fire_isAutomating id a) as [H|(t & Hin & Hr & _)]; [congruence|].
  unfold no_reset_pending in Hn. rewrite forallb_forall in Hn.
  specialize (Hn t Hin). rewrite Hr in Hn. discriminate.
Qed.

Lemma stays_on_run (a : App) (trace : list Event) :
  isAutomating (store a) = true ->
  no_reset_pending a = true ->
  forallb (fun e => negb (ends_task e)) trace = true ->
  isAutomating (store (run a trace)) = true
  /\ no_reset_pending (run a trace) = true.
Proof.
  revert a.
  induction trace as [|e trace IH]; intros a Ha Hn Hq; [now split|].
  cbn [forallb] in Hq. apply andb_true_iff in Hq. destruct Hq as [He Hq].
  apply negb_true_iff in He.
  rewrite run_cons. apply IH; [| |exact Hq].
  - now apply stays_on_deliver.
  - now apply no_reset_deliver.
Qed.

(** X13: while no reset timer is pending and no complete or error
    frame arrives, nothing turns the indicator off: an optimistic
    start the runner never answers stays on through reconnects, pings
    and settled requests. *)
Theorem unanswered_start_never_clears :
  forall (a : App) (trace : list Event),
    isAutomating (store a) = true ->
    no_reset_pending a = true ->
    forallb (fun e => negb (ends_task e)) trace = true ->
    isAutomating (store (run a trace)) = true
    /\ no_reset_pending (run a trace) = true.
Proof. exact stays_on_run. Qed.

Lemma unanswered_start_never_clears_witness :
  isAutomating
    (store (run (run initialApp [Mount; WsOpen 0; Typed "open the docs"; Send])
                [ChatSettled "assist" (Normal (JObj [("response", JStr "Here it is.")]));
                 Elapse 600000; Fire 1; WsClose 0; Elapse 3000; Fire 2; WsOpen 1;
                 WsMessage 1 pongFrame])) = true.
Proof.
  apply (unanswered_start_never_clears
           (run initialApp [Mount; WsOpen 0; Typed "open the docs"; Send]));
    reflexivity.
Defined.

(** ** Records of the history *)

Lemma onmessage_steps (st : option Status) (p : Payload) (a : App) :
  automationSteps (store (run_js (onmessage st p) a)) = automationSteps (store a)
  \/ automationSteps (store (run_js (onmessage st p) a)) = []
  \/ exists shot : JsVal,
       truthy shot = true
       /\ automationSteps (store (run_js (onmessage st p) a))
          = (automationSteps (store a) ++ [recordFor st shot])%list.
Proof.
  destruct p as [|[]]; try (left; reflexivity); js_run; js_cases;
    try (left; reflexivity); try (right; left; reflexivity);
    right; right; eexists; (split; [|reflexivity]); assumption.
Qed.

Lemma fire_store (id : positive) (a : App) :
  store (fire id a) = store a
  \/ store (fire id a) = resetAutomationState (store a).
Proof.
  unfold fire. destruct (find _ _) as [t|]; [|now left].
  destruct (N.leb _ _); [|now left].
  destruct (callback t); cbn.
  - left. now destruct (connectWebSocket_store
                          (on_refs (set_reconnectTimeoutRef None)
                             (on_browser
                                (fun b => set_timers (flat_map (rearm id) (timers b)) b)
                                a))) as [-> _].
  - now right.
  - left. destruct (is_open _ _); [destruct (wsRef _)|]; reflexivity.
Qed.

Lemma records_default_deliver (a : App) (e : Event) :
  records_default a -> records_default (deliver a e).
Proof.
  unfold records_default. intros [Hseen Hall].
  split; [now rewrite deliver_seenStatus|].
  destruct (is_transport e) eqn:Ht.
  - now destruct (transport_deliver a e Ht) as [-> _].
  - destruct e; try discriminate Ht; cbn [deliver].
    + destruct (exists_socket ws a); [|exact Hall].
      destruct (onmessage_steps (seenStatus a) p a)
        as [->|[->|(shot & Hshot & ->)]]; [exact Hall|constructor|].
      apply Forall_app. split; [exact Hall|].
      constructor; [|constructor]. rewrite Hseen.
      unfold is_default_record, recordFor; cbn. now repeat split.
    + destruct (fire_store id a) as [->| ->]; [exact Hall|constructor].
    + exact Hall.
    + exact Hall.
    + unfold handleSendNow, handleSend. destruct (_ || _); [exact Hall|].
      cbn. now rewrite optimisticStart_steps.
    + destruct (handleSendSettled_fields mode response a) as (_ & _ & _ & Hs).
      unfold session in Hs. inversion Hs as [[H1 H2 H3]]. now rewrite H3.
Qed.

(** X14: in every reachable state every record of the history has the
    action "update", the message "Updated" and a truthy screenshot. *)
Theorem every_record_has_the_fallback_text :
  forall trace : list Event,
    Forall is_default_record (automationSteps (store (run initialApp trace))).
Proof.
  assert (G : forall trace a, records_default a -> records_default (run a trace)).
  { induction trace as [|e trace IH]; intros a H; [exact H|].
    rewrite run_cons. apply IH. now apply records_default_deliver. }
  intros trace. apply (G trace initialApp). split; [reflexivity|constructor].
Qed.

(** ** The visible records *)

(** X15: [slice(-n)] returns a suffix of the array: the last
    [min n (length l)] elements for [n > 0], and the whole array for
    [n = 0]; the indicator shows the last [min 3 (length)] records, and
    after an append these are the previous last two followed by the new
    one. *)
Theorem visible_steps_are_the_latest :
  (forall (n : nat) (l : list Step),
      exists older : list Step,
        l = (older ++ slice_last n l)%list
        /\ List.length (slice_last n l)
           = match n with
             | O => List.length l
             | S _ => Nat.min n (List.length l)
             end)
  /\ (forall s : Store,
         List.length (visibleSteps s) = Nat.min 3 (List.length (automationSteps s)))
  /\ (forall (x : Step) (s : Store),
         visibleSteps (addAutomationStep x s)
         = (slice_last 2 (automationSteps s) ++ [x])%list).
Proof.
  split; [|split].
  - intros n l. destruct n as [|n].
    + exists []. split; reflexivity.
    + exists (firstn (List.length l - S n) l). unfold slice_last. split.
      * symmetry. apply firstn_skipn.
      * rewrite length_skipn. lia.
  - intros s. unfold visibleSteps, slice_last. rewrite length_skipn. lia.
  - intros x s. unfold visibleSteps, slice_last; cbn.
    rewrite length_app; cbn.
    replace (List.length (automationSteps s) + 1 - 3)
      with (List.length (automationSteps s) - 2) by lia.
    rewrite skipn_app.
    replace (List.length (automationSteps s) - 2 - List.length (automationSteps s))
      with 0 by lia.
    reflexivity.
Qed.

(** ** [handleNavigate] *)

Lemma startsWith_append (pat s t : string) :
  startsWith pat s = true -> startsWith pat (String.append s t) = true.
Proof.
  revert s. induction pat as [|c pat IH]; intros s; [reflexivity|].
  destruct s as [|c' s]; cbn; [discriminate|].
  intros H. apply andb_true_iff in H. destruct H as [-> H]. now rewrite (IH s H).
Qed.

Lemma normalizedUrl_http (s : string) : startsWith "http" (normalizedUrl s) = true.
Proof.
  unfold normalizedUrl. destruct (startsWith "http" s) eqn:H; [exact H|].
  apply (startsWith_append "http" "https://" s). reflexivity.
Qed.

Lemma normalizedUrl_not_blank (s : string) :
  (normalizedUrl s =? "") = false /\ (normalizedUrl s =? "about:blank") = false.
Proof.
  pose proof (normalizedUrl_http s) as H.
  destruct (normalizedUrl s) as [|c r]; [discriminate H|].
  cbn [startsWith] in H. apply andb_true_iff in H. destruct H as [Hc _].
  apply Ascii.eqb_eq in Hc. subst c. split; reflexivity.
Qed.

Lemma handleNavigate_string (b : JsVal) (s : string) (a : App) :
  (s =? "") = false -> (s =? "about:blank") = false ->
  handleNavigate b (JStr s) a = (Normal tt, navigated s a).
Proof.
  intros H1 H2. unfold handleNavigate, or_else.
  cbn -[startsWith String.eqb]. rewrite H1. cbn -[startsWith String.eqb].
  rewrite H1, H2. cbn -[startsWith String.eqb].
  unfold bind, lift, exec, navigated, normalizedUrl.
  cbn -[startsWith String.eqb]. destruct (startsWith "http" s); reflexivity.
Qed.

(** X16: [handleNavigate] on a non-empty string other than
    "about:blank" sets [browserUrl] and [currentUrl] to the same URL,
    the string itself when it starts with "http" and "https://" + the
    string otherwise; the result starts with "http", normalising it
    again changes nothing, and navigating again from the URL bar is a
    no-op. *)
Theorem navigate_normalizes_the_url :
  forall (b : JsVal) (s : string) (a : App),
    s <> "" -> s <> "about:blank" ->
    handleNavigate b (JStr s) a = (Normal tt, navigated s a)
    /\ browserUrl (local (navigated s a)) = JStr (normalizedUrl s)
    /\ currentUrl (store (navigated s a)) = JStr (normalizedUrl s)
    /\ startsWith "http" (normalizedUrl s) = true
    /\ normalizedUrl (normalizedUrl s) = normalizedUrl s
    /\ handleNavigateNow JUndefined (navigated s a) = (Normal tt, navigated s a).
Proof.
  intros b s a H1 H2.
  apply String.eqb_neq in H1. apply String.eqb_neq in H2.
  pose proof (normalizedUrl_http s) as Hh.
  destruct (normalizedUrl_not_blank s) as [Hn1 Hn2].
  split; [now apply handleNavigate_string|].
  split; [reflexivity|split; [reflexivity|split; [exact Hh|split]]].
  - unfold normalizedUrl at 1. now rewrite Hh.
  - unfold handleNavigateNow.
    change (browserUrl (local (navigated s a))) with (JStr (normalizedUrl s)).
    unfold handleNavigate, or_else.
    cbn -[startsWith String.eqb normalizedUrl]. rewrite Hn1, Hn2.
    cbn -[startsWith String.eqb normalizedUrl].
    unfold bind, lift, exec. cbn -[startsWith String.eqb normalizedUrl].
    rewrite Hh. reflexivity.
Qed.

Lemma navigate_normalizes_the_url_witness :
  handleNavigate (JStr "about:blank") (JStr "example.com/a") connected
  = (Normal tt, navigated "example.com/a" connected)
  /\ browserUrl (local (navigated "example.com/a" connected))
     = JStr "https://example.com/a".
Proof.
  destruct (navigate_normalizes_the_url (JStr "about:blank") "example.com/a"
              connected) as (H1 & H2 & _).
  - discriminate.
  - discriminate.
  - split; [exact H1|exact H2].
Defined.

(** X17: [handleNavigate] throws a TypeError, leaving the state
    untouched, when its truthy argument is not a string (the refresh
    button passes its click event) or when, without an argument,
    [browserUrl] is truthy and not a string; it does nothing for a
    falsy or "about:blank" URL. *)
Theorem navigate_rejects_what_is_not_a_string :
  (forall (b v : JsVal) (a : App),
      truthy v = true -> is_string v = false ->
      handleNavigate b v a = (Throw TypeError, a))
  /\ (forall (b v : JsVal) (a : App),
         truthy v = false -> truthy b = true -> is_string b = false ->
         handleNavigate b v a = (Throw TypeError, a))
  /\ (forall (b v : JsVal) (a : App),
         truthy v = false ->
         truthy b = false \/ b = JStr "about:blank" ->
         handleNavigate b v a = (Normal tt, a))
  /\ (forall (b : JsVal) (a : App),
         handleNavigate b (JStr "about:blank") a = (Normal tt, a)).
Proof.
  assert (G : forall (u : JsVal) (k : bool -> JS unit) (a : App),
             truthy u = true -> is_string u = false ->
             (if negb (truthy u) || is_case u "about:blank" then ret tt
              else bind (lift (js_startsWith u "http")) k) a
             = (Throw TypeError, a)).
  { intros u k a Ht Hs. rewrite Ht.
    destruct u; try discriminate Hs; reflexivity. }
  split; [|split; [|split]].
  - intros b v a Ht Hs. unfold handleNavigate, or_else.
    assert (E : default_null v = v) by (destruct v; try reflexivity; discriminate Ht).
    rewrite E, Ht. now apply G.
  - intros b v a Hv Ht Hs. unfold handleNavigate, or_else.
    assert (E : truthy (default_null v) = false)
      by (destruct v; try exact Hv; reflexivity).
    rewrite E. now apply G.
  - intros b v a Hv Hb. unfold handleNavigate, or_else.
    assert (E : truthy (default_null v) = false)
      by (destruct v; try exact Hv; reflexivity).
    rewrite E. destruct Hb as [Hb| ->]; [now rewrite Hb|reflexivity].
  - intros b a. reflexivity.
Qed.

Lemma navigate_rejects_what_is_not_a_string_witness :
  handleNavigate (JStr "https://example.com")
    (JObj [("type", JStr "click")]) connected = (Throw TypeError, connected)
  /\ handleNavigate (JNum 5) JUndefined connected = (Throw TypeError, connected)
  /\ handleNavigateNow JUndefined connected = (Normal tt, connected).
Proof.
  destruct navigate_rejects_what_is_not_a_string as (Harg & Hurl & Hnone & _).
  split; [|split].
  - apply Harg; reflexivity.
  - apply Hurl; reflexivity.
  - apply Hnone; [reflexivity|right; reflexivity].
Defined.

Lemma handleNavigateSettled_normal (response : Completion JsVal) (a : App) :
  fst (handleNavigateSettled response a) = Normal tt.
Proof.
  unfold handleNavigateSettled, try_catch.
  match goal with |- context [match ?m a with _ => _ end] => destruct (m a) as [[[]|e] a'] end;
    reflexivity.
Qed.

Lemma handleNavigateSettled_data (data : JsVal) (a : App) :
  run_js (handleNavigateSettled (Normal data)) a
  = if truthy (get_opt data "screenshot")
    then match dataUrl (get_opt data "screenshot") with
         | Normal src => on_local (setBrowserScreenshot src) a
         | Throw _ => a
         end
    else a.
Proof.
  unfold run_js, handleNavigateSettled, try_catch, bind, lift, exec, ret, when.
  destruct data; cbn; try reflexivity;
    repeat match goal with
           | |- context [if ?c then _ else _] => destruct c
           | |- context [match dataUrl ?v with _ => _ end] => destruct (dataUrl v)
           end; reflexivity.
Qed.

(** X18: the continuation of [handleNavigate] completes normally and
    never touches the store or [browserUrl]; it changes nothing when
    the request failed, when the body has no truthy screenshot, or when
    the screenshot cannot be printed; a non-empty string screenshot
    becomes the data URL with that string, and any other truthy
    screenshot whose numbers are safe integers becomes the text the
    template literal prints. *)
Theorem navigation_result_only_changes_the_picture :
  (forall (response : Completion JsVal) (a : App),
      fst (handleNavigateSettled response a) = Normal tt
      /\ store (run_js (handleNavigateSettled response) a) = store a
      /\ browserUrl (local (run_js (handleNavigateSettled response) a))
         = browserUrl (local a)
      /\ (unusable response = true ->
          run_js (handleNavigateSettled response) a = a))
  /\ (forall (data : JsVal) (a : App),
         truthy (get_opt data "screenshot") && prints (get_opt data "screenshot")
         = false ->
         run_js (handleNavigateSettled (Normal data)) a = a)
  /\ (forall (data : JsVal) (img : string) (a : App),
         get_opt data "screenshot" = JStr img -> img <> "" ->
         browserScreenshot (local (run_js (handleNavigateSettled (Normal data)) a))
         = imageUrl img)
  /\ (forall (data src : JsVal) (a : App),
         truthy (get_opt data "screenshot") = true ->
         printable (get_opt data "screenshot") = true ->
         dataUrl (get_opt data "screenshot") = Normal src ->
         browserScreenshot (local (run_js (handleNavigateSettled (Normal data)) a))
         = src).
Proof.
  split; [|split; [|split]].
  - intros response a. split; [apply handleNavigateSettled_normal|].
    destruct response as [data|e]; [rewrite handleNavigateSettled_data|].
    + destruct (truthy (get_opt data "screenshot")) eqn:Ht.
      * destruct (dataUrl (get_opt data "screenshot")); cbn; repeat split.
        intros H. destruct data; try discriminate H; discriminate Ht.
      * repeat split.
    + repeat split.
  - intros data a H. rewrite handleNavigateSettled_data.
    unfold prints, dataUrl, template in *.
    destruct (truthy (get_opt data "screenshot")); [|reflexivity].
    destruct (to_string (get_opt data "screenshot")); [discriminate H|reflexivity].
  - intros data img a H Hne. rewrite handleNavigateSettled_data, H.
    apply String.eqb_neq in Hne. cbn [truthy]. rewrite Hne. reflexivity.
  - intros data src a Ht _ Hs. rewrite handleNavigateSettled_data, Ht, Hs.
    reflexivity.
Qed.

Lemma navigation_result_only_changes_the_picture_witness :
  run_js (handleNavigateSettled (Throw NetworkError))
         (navigated "example.com" connected)
  = navigated "example.com" connected
  /\ run_js (handleNavigateSettled
               (Normal (JObj [("screenshot", JObj [("toString", JNum 1)])])))
            connected
     = connected
  /\ browserScreenshot
       (local (run_js (handleNavigateSettled
                         (Normal (JObj [("screenshot", JStr "QUJD")])))
                      connected))
     = JStr "data:image/png;base64,QUJD"
  /\ browserScreenshot
       (local (run_js (handleNavigateSettled
                         (Normal (JObj [("screenshot", JNum 7)])))
                      connected))
     = JStr "data:image/png;base64,7".
Proof.
  destruct navigation_result_only_changes_the_picture as (Hall & Hnone & Hstr & Hany).
  split; [|split; [|split]].
  - apply (Hall (Throw NetworkError) (navigated "example.com" connected)).
    reflexivity.
  - apply Hnone. reflexivity.
  - apply (Hstr (JObj [("screenshot", JStr "QUJD")]) "QUJD" connected);
      [reflexivity|discriminate].
  - apply (Hany (JObj [("screenshot", JNum 7)])); reflexivity.
Defined.

(** ** Suggested actions *)


(** ** Mode tables *)

(** X20: the colour [getModeColor] gives for the id of each entry of
    [modes] is that entry's colour, and [modes.find] returns the entry;
    an id that is not in the table gets the default colour; the
    initial mode is in the table. *)
Theorem mode_tables_agree :
  (forall m : Mode,
      In m modes ->
      currentModeData (mode_id m) = Some m
      /\ getModeColor (JStr (mode_id m)) = mode_color m)
  /\ (forall s : string,
         currentModeData s = None -> getModeColor (JStr s) = defaultModeColor)
  /\ currentModeData (currentMode initialStore) <> None.
Proof.
  split; [|split].
  - intros m Hin. cbn in Hin.
    destruct Hin as [<-|[<-|[<-|[]]]]; split; reflexivity.
  - intros s. unfold currentModeData, getModeColor; cbn -[String.eqb].
    rewrite (String.eqb_sym "assist" s), (String.eqb_sym "research" s),
      (String.eqb_sym "automate" s).
    destruct (s =? "assist"); [discriminate|].
    destruct (s =? "research"); [discriminate|].
    destruct (s =? "automate"); [discriminate|]. reflexivity.
  - cbn. discriminate.
Qed.

Lemma mode_tables_agree_witness :
  getModeColor (JStr "research") = "from-blue-500 to-purple-500"
  /\ getModeColor (JStr "browse") = defaultModeColor.
Proof.
  destruct mode_tables_agree as (Hin & Hout & _).
  split.
  - apply (Hin (mkMode "research" "Research" Search
                       "from-blue-500 to-purple-500" "Search web with citations")).
    cbn. tauto.
  - apply Hout. reflexivity.
Defined.

(** ** A cancelled reconnect *)

Lemma cleanup_leaves_stale_ref (a : App) :
  reconnect_inv a ->
  pingInterval (effect a) <> None ->
  reconnectTimeoutRef (refs a) <> None ->
  ref_is_stale (cleanup a).
Proof.
  unfold reconnect_inv, ref_is_stale, cleanup. intros Hinv Hp Hr.
  destruct (pingInterval (effect a)) as [pid|]; [|congruence].
  destruct (reconnectTimeoutRef (refs a)) as [id|] eqn:Href; [|congruence].
  cbn. rewrite Href.
  assert (Hnone : filter is_reconnect
                    (filter (fun t => negb (is_timer id t))
                       (filter (fun t => negb (is_timer pid t))
                          (timers (browser a)))) = []).
  { rewrite filter_comm, (filter_comm is_reconnect).
    unfold reconnectTimers in Hinv.
    destruct (filter is_reconnect (timers (browser a))) as [|t [|t' rest]];
      cbn in *; [reflexivity| |tauto].
    destruct Hinv as [Heq _]. inversion Heq; subst.
    destruct (negb (is_timer pid t)); cbn; [|reflexivity].
    unfold is_timer. now rewrite Pos.eqb_refl. }
  destruct (is_open _ _); [destruct (effectWs (effect a)) as [sid|]|];
    cbn; (split; [rewrite ?Href; discriminate|]);
    unfold reconnectTimers; cbn; try exact Hnone.
  unfold ws_close; cbn. destruct (nth_error _ sid) as [[]|]; exact Hnone.
Qed.

Lemma stale_same (a a' : App) :
  reconnectTimeoutRef (refs a') = reconnectTimeoutRef (refs a) ->
  filter is_reconnect (timers (browser a'))
  = filter is_reconnect (timers (browser a)) ->
  ref_is_stale a -> ref_is_stale a'.
Proof. unfold ref_is_stale, reconnectTimers. now intros -> ->. Qed.

Lemma stale_deliver (a : App) (e : Event) :
  is_open_event e = false -> ref_is_stale a -> ref_is_stale (deliver a e).
Proof.
  intros He H. destruct e; try discriminate He; cbn [deliver].
  - unfold mountEffect. destruct (connectWebSocket_timers a) as [Ht Hr].
    destruct (connectWebSocket a) as [ws a1]. cbn [snd] in *.
    eapply stale_same; [| |exact H]; cbn; [exact Hr|].
    rewrite filter_app, Ht. cbn. apply app_nil_r.
  - unfold cleanup. destruct (pingInterval (effect a)) as [pid|]; [|exact H].
    destruct H as [Hr Hn]. unfold ref_is_stale, reconnectTimers in *.
    destruct (reconnectTimeoutRef (refs a)) as [id|] eqn:Href; [|congruence].
    cbn. rewrite Href.
    assert (Hnone : filter is_reconnect
                      (filter (fun t => negb (is_timer id t))
                         (filter (fun t => negb (is_timer pid t))
                            (timers (browser a)))) = [])
      by (rewrite filter_comm, (filter_comm is_reconnect), Hn; reflexivity).
    destruct (is_open _ _); [destruct (effectWs (effect a)) as [sid|]|];
      cbn; (split; [rewrite ?Href; discriminate|]); try exact Hnone.
    unfold ws_close; cbn. destruct (nth_error _ sid) as [[]|]; exact Hnone.
  - destruct (exists_socket ws a); [|exact H].
    eapply stale_same; [| |exact H].
    + now rewrite onmessage_refs.
    + destruct (onmessage_timers (seenStatus a) p a) as [->|(t & Hcb & ->)];
        [reflexivity|].
      rewrite filter_app. cbn [filter].
      replace (is_reconnect t) with false
        by (unfold is_reconnect; now rewrite Hcb).
      apply app_nil_r.
  - destruct (exists_socket ws a); [|exact H].
    destruct H as [Hr Hn]. unfold onclose; cbn.
    destruct (reconnectTimeoutRef (refs a)) as [id|] eqn:Href; [|congruence].
    split; [cbn; rewrite Href; discriminate|exact Hn].
  - destruct (exists_socket ws a); exact H.
  - exact H.
  - unfold fire. destruct (find _ _) as [t|] eqn:Hf; [|exact H].
    destruct (N.leb _ _); [|exact H].
    apply find_some in Hf. destruct Hf as [Hin _].
    destruct H as [Hr Hn]. unfold reconnectTimers in Hn.
    assert (Hnot : forall t', In t' (timers (browser a)) -> is_reconnect t' = false).
    { intros t' Hin'. destruct (is_reconnect t') eqn:E; [|reflexivity].
      assert (Hin'' : In t' (filter is_reconnect (timers (browser a))))
        by (apply filter_In; auto).
      rewrite Hn in Hin''. destruct Hin''. }
    assert (Hre : filter is_reconnect (flat_map (rearm id) (timers (browser a))) = []).
    { rewrite rearm_reconnect.
      - now rewrite Hn.
      - intros t' Hin' Ht'. rewrite (Hnot t' Hin') in Ht'. discriminate. }
    pose proof (Hnot t Hin) as Ht. unfold is_reconnect in Ht.
    destruct (callback t); [discriminate| |]; cbn.
    + split; [exact Hr|exact Hre].
    + destruct (is_open _ _); [destruct (wsRef _)|]; (split; [exact Hr|exact Hre]).
  - exact H.
  - exact H.
  - unfold handleSendNow, handleSend. js_cases; exact H.
  - destruct (handleSendSettled_fields mode response a) as (_ & Hr & Hb & _).
    eapply stale_same; [| |exact H]; now rewrite ?Hr, ?Hb.
Qed.

(** X21: when the cleanup cancels a pending reconnect it leaves the
    handle in the ref; from then on, until some socket opens, no close
    schedules a reconnect again. *)
Theorem cancelled_reconnect_is_never_rescheduled :
  forall (before after : list Event),
    pingInterval (effect (run initialApp before)) <> None ->
    reconnectTimeoutRef (refs (run initialApp before)) <> None ->
    forallb (fun e => negb (is_open_event e)) after = true ->
    reconnectTimers (run (cleanup (run initialApp before)) after) = []
    /\ reconnectTimeoutRef (refs (run (cleanup (run initialApp before)) after))
       <> None.
Proof.
  intros before after Hp Hr Hq.
  pose proof (cleanup_leaves_stale_ref (run initialApp before)
                (reconnect_inv_run before initialApp I) Hp Hr) as H.
  revert H. generalize (cleanup (run initialApp before)).
  induction after as [|e after IH]; intros a H.
  - destruct H as [H1 H2]. now split.
  - cbn [forallb] in Hq. apply andb_true_iff in Hq. destruct Hq as [He Hq].
    apply negb_true_iff in He. rewrite run_cons.
    apply (IH Hq). now apply stale_deliver.
Qed.

Lemma cancelled_reconnect_is_never_rescheduled_witness :
  reconnectTimers
    (run (cleanup (run initialApp [Mount; WsClose 0]))
         [Mount; WsClose 1; Elapse 3000; WsClose 1; WsError 1]) = [].
Proof.
  apply (cancelled_reconnect_is_never_rescheduled
           [Mount; WsClose 0]
           [Mount; WsClose 1; Elapse 3000; WsClose 1; WsError 1]).
  - cbn. discriminate.
  - cbn. discriminate.
  - reflexivity.
Defined.

(** ** What undoes an optimistic start *)

(** C9, as stated, fails: a second task submitted within the hold of
    the first raises the indicator, and two seconds after the first
    task's complete frame the reset timer it left pending clears the
    session, with no progress, complete or error frame in between. *)
Lemma optimistic_start_reverted_by_stale_timer :
  session (store (run initialApp (firstTask ++ secondSend)))
  = (true,
     Some (mkStatus (JStr "Working...") (JStr "Preparing to assist you")
                    JUndefined JUndefined JUndefined),
     [mkStep (JStr "update") (JStr "Updated") (JStr "AAAA")])
  /\ session (store (run initialApp
                       (firstTask ++ secondSend ++ [Elapse 2000; Fire 2])))
     = (false, None, []).
Proof. split; reflexivity. Qed.

(** C9, amended: firing the trigger twice gives the session of firing
    it once, a second [handleSend] changes nothing in it, and
    [handleSend] never turns [isAutomating] off.  What turns it off is
    only the run of a reset timer that was pending, whether a later
    complete or error frame scheduled it or an earlier task left it
    behind; with no reset pending, the session stays active for as long
    as no complete or error frame arrives. *)
Theorem optimistic_start_idempotent :
  (forall (m1 i1 m2 i2 : string) (s : Store),
      optimisticCondition m1 i1 = true ->
      optimisticCondition m2 i2 = true ->
      optimisticStart m2 i2 (optimisticStart m1 i1 s) = optimisticStart m1 i1 s)
  /\ (forall (i1 m1 i2 m2 : string) (l2 : bool) (a : App),
         trim i1 <> "" ->
         optimisticCondition m1 i1 = true ->
         session (store (handleSend i2 l2 m2 (handleSend i1 false m1 a)))
         = session (store (handleSend i1 false m1 a)))
  /\ (forall a : App, handleSendNow (handleSendNow a) = handleSendNow a)
  /\ (forall (i m : string) (l : bool) (a : App),
         isAutomating (store a) = true ->
         isAutomating (store (handleSend i l m a)) = true)
  /\ (forall (a : App) (e : Event),
         isAutomating (store a) = true ->
         isAutomating (store (deliver a e)) = false ->
         exists (id : positive) (t : Timer),
           e = Fire id /\ In t (timers (browser a)) /\ is_reset t = true)
  /\ (forall (a : App) (trace : list Event),
         isAutomating (store a) = true ->
         no_reset_pending a = true ->
         forallb (fun e => negb (ends_task e)) trace = true ->
         isAutomating (store (run a trace)) = true).
Proof.
  destruct optimistic_trigger_laws as (H1 & H2 & H3 & H4).
  split; [exact H1|split; [exact H2|split; [exact H3|split; [exact H4|split]]]].
  - intros a e Ha Hoff.
    destruct (proj2 (deliver_isAutomating_cases a e) Ha Hoff) as [id ->].
    cbn [deliver] in Hoff.
    destruct (fire_isAutomating id a) as [H|(t & Hin & Hr & _)]; [congruence|].
    now exists id, t.
  - intros a trace Ha Hn Hq. now apply (stays_on_run a trace).
Qed.

Lemma optimistic_start_idempotent_witness :
  optimisticStart "automate" "book a table"
    (optimisticStart "assist" "navigate to example.com" initialStore)
  = optimisticStart "assist" "navigate to example.com" initialStore
  /\ session (store (handleSend "go to the cart" false "assist"
                       (handleSend "navigate to example.com" false "assist"
                          connected)))
     = session (store (handleSend "navigate to example.com" false "assist"
                         connected))
  /\ isAutomating (store (handleSend "hello" false "assist" taskStarted)) = true
  /\ (exists (id : positive) (t : Timer),
        Fire 2 = Fire id
        /\ In t (timers (browser (run initialApp supersededTask)))
        /\ is_reset t = true)
  /\ isAutomating
       (store (run (run initialApp [Mount; WsOpen 0; Typed "open the docs"; Send])
                   [WsMessage 0 progressClick; WsClose 0; Elapse 3000; Fire 2]))
     = true.
Proof.
  destruct optimistic_start_idempotent
    as (Htwice & Hsend & _ & Hkeep & Hoff & Hstays).
  split; [|split; [|split; [|split]]].
  - apply Htwice; reflexivity.
  - apply Hsend; [cbn; discriminate|reflexivity].
  - apply Hkeep. reflexivity.
  - apply (Hoff (run initialApp supersededTask) (Fire 2)); reflexivity.
  - apply Hstays; reflexivity.
Defined.
